(** * PyHelper [gamehelpers]: the timers, embedded and verified

    Source: [src/pyhelper/gamehelpers/__init__.py], classes [Timer],
    [CountUpTimer] and [CountDownTimer].

    The embedding is shallow.  A Python [float] is an IEEE 754 binary64
    number, here a [spec_float] operated on at precision 53 and maximal
    exponent 1024; the wall clock [time.time()] is a stream of readings
    consumed one per call; an object is a record, a method a function in a
    state-and-exception monad in which a raised exception keeps the
    mutations made before it, as Python does. *)

From Stdlib Require Import ZArith List String Ascii Bool Lia.
From Stdlib Require Import SpecFloat DecimalString DecimalPos.
Import ListNotations.

Local Open Scope Z_scope.

(** ** Exceptions and results *)

(** The exceptions the timers can raise: the built-in ones of the numeric
    conversions and of indexing, and whatever an expiry callback raises
    (told apart by a tag). *)
Inductive exn : Type :=
| ValueError
| IndexError
| OverflowError
| ZeroDivisionError
| CallbackError (tag : nat).

Inductive result (A : Type) : Type :=
| Ok (a : A)
| Raise (e : exn).

Arguments Ok {A} a.
Arguments Raise {A} e.

Definition is_ok {A} (r : result A) : bool :=
  match r with Ok _ => true | Raise _ => false end.

(** ** Python floats *)

Module PyFloat.

Definition float := spec_float.

Definition prec : Z := 53.
Definition emax : Z := 1024.

Definition fadd : float -> float -> float := SFadd prec emax.
Definition fsub : float -> float -> float := SFsub prec emax.
Definition fmul : float -> float -> float := SFmul prec emax.
Definition fdiv : float -> float -> float := SFdiv prec emax.
Definition fltb : float -> float -> bool := SFltb.
Definition fleb : float -> float -> bool := SFleb.
Definition feqb : float -> float -> bool := SFeqb.

(** [x > y] and [x >= y] are [y < x] and [y <= x]; [x != y] is the
    negation of [x == y] (true when either side is a NaN). *)
Definition fgtb (x y : float) : bool := fltb y x.
Definition fgeb (x y : float) : bool := fleb y x.
Definition fneb (x y : float) : bool := negb (feqb x y).

Definition is_nan (x : float) : bool :=
  match x with S754_nan => true | _ => false end.

Definition is_inf (x : float) : bool :=
  match x with S754_infinity _ => true | _ => false end.

(** C's [isfinite]: neither an infinity nor a NaN. *)
Definition is_finite (x : float) : bool :=
  match x with
  | S754_zero _ | S754_finite _ _ _ => true
  | _ => false
  end.

Definition sign_bit (x : float) : bool :=
  match x with
  | S754_zero s | S754_infinity s | S754_finite s _ _ => s
  | S754_nan => false
  end.

(** Truthiness of a float: [x != 0.0]. *)
Definition nonzero (x : float) : bool :=
  match x with S754_zero _ => false | _ => true end.

(** The float nearest to the integer [z] (ties to even); exact when
    [|z| <= 2^53]. *)
Definition of_Z (z : Z) : float := binary_normalize prec emax z 0 false.

(** The float nearest to [n / d] for integers [n >= 0] and [d > 0],
    with sign [s]. *)
Definition of_ratio (s : bool) (n d : Z) : float :=
  match n with
  | Z0 => S754_zero s
  | _ =>
      let '(q, e, l) := SFdiv_core_binary prec emax n 0 d 0 in
      binary_round_aux prec emax s q e l
  end.

Definition zero : float := S754_zero false.
Definition one : float := of_Z 1.
Definition half : float := S754_finite false 4503599627370496 (-53).

(** A genuine finite binary64 number, which is what [time.time()]
    returns. *)
Definition is_double (x : float) : bool :=
  is_finite x && valid_binary prec emax x.

(** A float that fits the format: at most 53 bits of mantissa, at an
    exponent of at most 971. *)
Definition fits (x : float) : Prop :=
  match x with
  | S754_finite _ m e => Zpos (digits2_pos m) <= 53 /\ e <= 971
  | _ => True
  end.

(** [x] is exactly the rational [n / d] (for [d > 0]). *)
Definition is_ratio (x : float) (n d : Z) : bool :=
  match x with
  | S754_zero _ => n =? 0
  | S754_finite s m e =>
      cond_Zopp s (Zpos m) * 2 ^ Z.max e 0 * d =? n * 2 ^ Z.max (- e) 0
  | _ => false
  end.

(** *** [float(int)]: the conversion of the mixed arithmetic [int + float];
    an integer too large for a float raises [OverflowError]. *)
Definition of_int (z : Z) : result float :=
  let r := of_Z z in
  if is_inf r then Raise OverflowError else Ok r.

Definition copysign (x y : float) : float :=
  match x with
  | S754_zero _ => S754_zero (sign_bit y)
  | S754_infinity _ => S754_infinity (sign_bit y)
  | S754_finite _ m e => S754_finite (sign_bit y) m e
  | S754_nan => S754_nan
  end.

(** *** C's [fmod]: the exact remainder of the truncated division, with
    the sign of [x]. *)
Definition fmod (x y : float) : float :=
  match x, y with
  | S754_nan, _ | _, S754_nan => S754_nan
  | S754_infinity _, _ => S754_nan
  | _, S754_zero _ => S754_nan
  | S754_zero _, _ => x
  | _, S754_infinity _ => x
  | S754_finite sx mx ex, S754_finite _ my ey =>
      let e := Z.min ex ey in
      let r := (Zpos mx * 2 ^ (ex - e)) mod (Zpos my * 2 ^ (ey - e)) in
      match r with
      | Z0 => S754_zero sx
      | _ => binary_normalize prec emax (cond_Zopp sx r) e false
      end
  end.

(** *** C's [floor]. *)
Definition floor (x : float) : float :=
  match x with
  | S754_finite s m e =>
      if 0 <=? e then x
      else
        match cond_Zopp s (Zpos m) / 2 ^ (- e) with
        | Z0 => S754_zero s
        | q => of_Z q
        end
  | _ => x
  end.

(** *** [divmod(vx, wx)] on floats (CPython's [_float_div_mod]). *)
Definition divmod (vx wx : float) : result (float * float) :=
  if negb (nonzero wx) then Raise ZeroDivisionError
  else
    let mod0 := fmod vx wx in
    let div0 := fdiv (fsub vx mod0) wx in
    let '(mod1, div1) :=
      if nonzero mod0 then
        if negb (Bool.eqb (fltb wx zero) (fltb mod0 zero))
        then (fadd mod0 wx, fsub div0 one)
        else (mod0, div0)
      else (copysign zero wx, div0) in
    let floordiv :=
      if nonzero div1 then
        let fl := floor div1 in
        if fgtb (fsub div1 fl) half then fadd fl one else fl
      else copysign zero (fdiv vx wx) in
    Ok (floordiv, mod1).

(** *** [int(x)]: truncation towards zero; a NaN raises [ValueError], an
    infinity [OverflowError]. *)
Definition to_int (x : float) : result Z :=
  match x with
  | S754_nan => Raise ValueError
  | S754_infinity _ => Raise OverflowError
  | S754_zero _ => Ok 0
  | S754_finite s m e =>
      Ok (cond_Zopp s (if 0 <=? e then Zpos m * 2 ^ e else Zpos m / 2 ^ (- e)))
  end.

(** *** [round(x, ndigits)] (CPython's [double_round]): [x] is rounded to
    [ndigits] decimals on its exact value, ties to even, and the decimal
    obtained is read back as the nearest float; a result that overflows
    raises [OverflowError]. *)
Definition round_half_even (p q : Z) : Z :=
  let k := p / q in
  match (2 * (p mod q)) ?= q with
  | Lt => k
  | Gt => k + 1
  | Eq => if Z.even k then k else k + 1
  end.

Definition NDIGITS_MAX : Z := 323.
Definition NDIGITS_MIN : Z := -308.

Definition round (x : float) (ndigits : Z) : result float :=
  match x with
  | S754_finite s m e =>
      if NDIGITS_MAX <? ndigits then Ok x
      else if ndigits <? NDIGITS_MIN then Ok (fmul zero x)
      else
        let up := 10 ^ Z.max ndigits 0 in
        let down := 10 ^ Z.max (- ndigits) 0 in
        let k := round_half_even (Zpos m * 2 ^ Z.max e 0 * up)
                                 (2 ^ Z.max (- e) 0 * down) in
        let r := of_ratio s (k * down) up in
        if is_inf r then Raise OverflowError else Ok r
  | _ => Ok x
  end.

End PyFloat.

(** ** Python strings and their conversions

    A [str] is modelled by [string]: a sequence of code points below 256.
    Within that range the conversions below are CPython's. *)

Module PyStr.
Import PyFloat.
Local Open Scope string_scope.
Local Open Scope Z_scope.

(** *** [str(n)] for an integer. *)
Definition str_int (z : Z) : string :=
  DecimalString.NilZero.string_of_int (Z.to_int z).

(** *** [s[:n]]. *)
Definition take (n : nat) (s : string) : string := substring 0 n s.

Fixpoint drop (n : nat) (s : string) : string :=
  match n, s with
  | O, _ => s
  | S n', String _ s' => drop n' s'
  | S _, EmptyString => EmptyString
  end.

Fixpoint zeros (n : nat) : string :=
  match n with
  | O => EmptyString
  | S n' => String "0" (zeros n')
  end.

Definition slen (s : string) : Z := Z.of_nat (String.length s).

(** *** [repr(x)] for a float, which is also [str(x)]: the shortest
    decimal that reads back as [x], in positional notation when the
    decimal point falls within 16 digits after the first and 4 zeros
    before it, in exponent notation otherwise. *)

(** [floor(m * 2^e * 10^400)]: large enough to be positive for every
    binary64 number. *)
Definition scaled (m : positive) (e : Z) : Z :=
  if 0 <=? e then Zpos m * 2 ^ e * 10 ^ 400
  else (Zpos m * 10 ^ 400) / 2 ^ (- e).

(** The decimal exponent [k] of [m * 2^e]: [10^k <= m * 2^e < 10^(k+1)]. *)
Definition exp10 (m : positive) (e : Z) : Z :=
  slen (str_int (scaled m e)) - 1 - 400.

(** The decimals [c * 10^t] with [n] digits next to [m * 2^e] that read
    back as it, the nearer one first.  The float's rounding interval ends
    half-way to its two neighbours (the lower one is twice as near at a
    power of two), ends included when the mantissa is even. *)
Definition candidate (m : positive) (e k n : Z) : option (Z * Z) :=
  let t := k - n + 1 in
  let a := 2 ^ Z.max (e - 2) 0 in
  let b := 2 ^ Z.max (2 - e) 0 in
  let t1 := 10 ^ Z.max t 0 in
  let t2 := 10 ^ Z.max (- t) 0 in
  let delta := if Pos.eqb m 4503599627370496 && (-1074 <? e) then 1 else 2 in
  let lo := (4 * Zpos m - delta) * a * t2 in
  let x := 4 * Zpos m * a * t2 in
  let hi := (4 * Zpos m + 2) * a * t2 in
  let u := t1 * b in
  let inside v :=
    if Z.even (Zpos m) then (lo <=? v) && (v <=? hi)
    else (lo <? v) && (v <? hi) in
  let c0 := x / u in
  let c1 := c0 + 1 in
  match inside (c0 * u), inside (c1 * u) with
  | false, false => None
  | true, false => Some (c0, t)
  | false, true => Some (c1, t)
  | true, true =>
      match (x - c0 * u) ?= (c1 * u - x) with
      | Lt => Some (c0, t)
      | Gt => Some (c1, t)
      | Eq => Some (if Z.even c0 then c0 else c1, t)
      end
  end.

Fixpoint shortest_from (fuel : nat) (m : positive) (e k n : Z) : Z * Z :=
  match fuel with
  | O => (scaled m e, -400)
  | S fuel' =>
      match candidate m e k n with
      | Some ct => ct
      | None => shortest_from fuel' m e k (n + 1)
      end
  end.

Fixpoint strip_zeros (fuel : nat) (c t : Z) : Z * Z :=
  match fuel with
  | O => (c, t)
  | S fuel' =>
      if (c mod 10 =? 0) && negb (c =? 0) then strip_zeros fuel' (c / 10) (t + 1)
      else (c, t)
  end.

(** The digits of the shortest decimal and the position of its decimal
    point: the value is [0.d1d2... * 10^decpt]. *)
Definition shortest (m : positive) (e : Z) : string * Z :=
  let '(c, t) := shortest_from 17 m e (exp10 m e) 1 in
  let '(c, t) := strip_zeros 18 c t in
  let ds := str_int c in
  (ds, slen ds + t).

Definition exponent_str (x : Z) : string :=
  let a := str_int (Z.abs x) in
  (if x <? 0 then "-" else "+") ++ (if slen a <? 2 then "0" ++ a else a).

Definition format_repr (ds : string) (decpt : Z) : string :=
  if (decpt <=? -4) || (16 <? decpt) then
    take 1 ds
    ++ (if 1 <? slen ds then "." ++ drop 1 ds else "")
    ++ "e" ++ exponent_str (decpt - 1)
  else if decpt <=? 0 then
    "0." ++ zeros (Z.to_nat (- decpt)) ++ ds
  else if slen ds <=? decpt then
    ds ++ zeros (Z.to_nat (decpt - slen ds)) ++ ".0"
  else
    take (Z.to_nat decpt) ds ++ "." ++ drop (Z.to_nat decpt) ds.

Definition repr (x : float) : string :=
  match x with
  | S754_nan => "nan"
  | S754_infinity s => if s then "-inf" else "inf"
  | S754_zero s => if s then "-0.0" else "0.0"
  | S754_finite s m e =>
      let '(ds, decpt) := shortest m e in
      (if s then "-" else "") ++ format_repr ds decpt
  end.

(** *** [s.split(sep)] for a one-character separator: never empty. *)
Fixpoint split (sep : ascii) (s : string) : list string :=
  match s with
  | EmptyString => [EmptyString]
  | String c s' =>
      if Ascii.eqb c sep then EmptyString :: split sep s'
      else
        match split sep s' with
        | h :: t => String c h :: t
        | [] => [String c EmptyString]
        end
  end.

(** *** Numeric literals. *)

Definition code (c : ascii) : Z := Z.of_nat (nat_of_ascii c).

Definition is_digit (c : ascii) : bool := (48 <=? code c) && (code c <=? 57).

(** White space stripped by [int] and [float]: the C locale's, and the two
    spaces of the Latin-1 range (NEL and the no-break space). *)
Definition is_space (c : ascii) : bool :=
  ((9 <=? code c) && (code c <=? 13)) || (code c =? 32)
  || (code c =? 133) || (code c =? 160).

Definition is_underscore (c : ascii) : bool := code c =? 95.

Definition lower (c : ascii) : ascii :=
  if (65 <=? code c) && (code c <=? 90)
  then ascii_of_nat (Z.to_nat (code c + 32)) else c.

Fixpoint lstrip (s : list ascii) : list ascii :=
  match s with
  | c :: s' => if is_space c then lstrip s' else s
  | [] => []
  end.

Definition strip (s : list ascii) : list ascii :=
  rev (lstrip (rev (lstrip s))).

(** An underscore may only stand between two digits. *)
Fixpoint underscores_ok (after_digit : bool) (s : list ascii) : bool :=
  match s with
  | [] => true
  | c :: s' =>
      if is_underscore c then
        after_digit
        && match s' with d :: _ => is_digit d | [] => false end
        && underscores_ok false s'
      else underscores_ok (is_digit c) s'
  end.

Definition without_underscores (s : list ascii) : list ascii :=
  filter (fun c => negb (is_underscore c)) s.

Fixpoint span_digits (s : list ascii) : list ascii * list ascii :=
  match s with
  | c :: s' =>
      if is_digit c then let '(ds, r) := span_digits s' in (c :: ds, r)
      else ([], s)
  | [] => ([], [])
  end.

Definition digits_value (ds : list ascii) : Z :=
  fold_left (fun acc c => 10 * acc + (code c - 48)) ds 0.

(** An optional sign: [true] for a minus. *)
Definition sign_of (s : list ascii) : bool * list ascii :=
  match s with
  | c :: s' =>
      if code c =? 45 then (true, s')
      else if code c =? 43 then (false, s')
      else (false, s)
  | [] => (false, [])
  end.

Definition is_nil {A} (l : list A) : bool :=
  match l with [] => true | _ => false end.

(** CPython's default bound on the digits of an integer literal
    ([sys.int_info.default_max_str_digits]). *)
Definition int_max_str_digits : Z := 4300.

(** *** [int(s)], base 10: white space around, a sign, digits with single
    underscores between them, no more digits than the bound; anything else
    raises [ValueError]. *)
Definition int_of_str (s : string) : result Z :=
  let body := strip (list_ascii_of_string s) in
  if negb (underscores_ok false body) then Raise ValueError
  else
    let '(neg, r) := sign_of (without_underscores body) in
    let '(ds, rest) := span_digits r in
    if is_nil ds || negb (is_nil rest) then Raise ValueError
    else if int_max_str_digits <? Z.of_nat (List.length ds) then Raise ValueError
    else Ok (cond_Zopp neg (digits_value ds)).

(** *** [float(s)]: white space around, a sign, then [inf], [infinity] or
    [nan] in any case, or decimal digits with an optional point and an
    optional exponent; the decimal is rounded to the nearest float, an
    overflow giving an infinity.  Anything else raises [ValueError]. *)
Definition lowered (s : list ascii) : string :=
  string_of_list_ascii (map lower s).

Definition is_exp_mark (c : ascii) : bool := (code c =? 101) || (code c =? 69).

(** The decimal [mant * 10^exp] a literal without sign denotes. *)
Definition decimal_of (s : list ascii) : option (Z * Z) :=
  let '(ip, r1) := span_digits s in
  let '(fp, r2) :=
    match r1 with
    | c :: r => if code c =? 46 then span_digits r else ([], r1)
    | [] => ([], [])
    end in
  if is_nil ip && is_nil fp then None
  else
    let '(ex, r3) :=
      match r2 with
      | c :: r =>
          if is_exp_mark c then
            let '(eneg, r') := sign_of r in
            let '(ed, r'') := span_digits r' in
            if is_nil ed then (0, r2) else (cond_Zopp eneg (digits_value ed), r'')
          else (0, r2)
      | [] => (0, [])
      end in
    if is_nil r3 then Some (digits_value (ip ++ fp)%list, ex - Z.of_nat (List.length fp))
    else None.

Definition float_of_str (s : string) : result float :=
  let body := strip (list_ascii_of_string s) in
  if negb (underscores_ok false body) then Raise ValueError
  else
    let '(neg, r) := sign_of (without_underscores body) in
    let word := lowered r in
    if String.eqb word "inf" || String.eqb word "infinity"
    then Ok (S754_infinity neg)
    else if String.eqb word "nan" then Ok S754_nan
    else
      match decimal_of r with
      | Some (mant, ex) =>
          Ok (of_ratio neg (mant * 10 ^ Z.max ex 0) (10 ^ Z.max (- ex) 0))
      | None => Raise ValueError
      end.

End PyStr.

(** ** Effects: the clock, the callback log, and the method monad *)

(** What an expiry callback can observe of the timer that calls it. *)
Record TimerView : Type := mkView {
  view_time_in_seconds : PyFloat.float;
  view_saved_time : PyFloat.float;
  view_is_running : bool;
  view_start_time : PyFloat.float
}.

(** A zero-argument callable given as [command]: it returns ([None]) or
    raises ([Some e]), possibly depending on the timer as it finds it.  It
    does not call back into the timer. *)
Definition Callable : Type := TimerView -> option exn.

(** The world outside the objects: [clock n] is what the [n]-th call of
    [time.time()] returns, [ticks] counts the calls made so far, and [calls]
    logs every invocation of a callback with the timer as it stood then,
    oldest first. *)
Record World : Type := mkWorld {
  clock : nat -> PyFloat.float;
  ticks : nat;
  calls : list TimerView
}.

Definition tick (w : World) : World :=
  mkWorld (clock w) (S (ticks w)) (calls w).

Definition logged (v : TimerView) (w : World) : World :=
  mkWorld (clock w) (ticks w) (calls w ++ [v]).

(** A method of an object of state [S]: it may mutate the object and the
    world, and it returns a value or raises.  The mutations made before a
    raise are kept. *)
Definition Py (S A : Type) : Type := S -> World -> result A * S * World.

Definition ret {S A} (a : A) : Py S A := fun s w => (Ok a, s, w).

Definition bind {S A B} (m : Py S A) (f : A -> Py S B) : Py S B :=
  fun s w =>
    match m s w with
    | (Ok a, s', w') => f a s' w'
    | (Raise e, s', w') => (Raise e, s', w')
    end.

Definition get {S} : Py S S := fun s w => (Ok s, s, w).

Definition modify {S} (f : S -> S) : Py S unit := fun s w => (Ok tt, f s, w).

Definition lift {S A} (r : result A) : Py S A := fun s w => (r, s, w).

(** [time.time()] *)
Definition time {S} : Py S PyFloat.float :=
  fun s w => (Ok (clock w (ticks w)), s, tick w).

Declare Scope py_scope.
Delimit Scope py_scope with py.
Notation "x <- m ;; k" := (bind m (fun x => k))
  (at level 61, m at next level, right associativity) : py_scope.
Notation "' pat <- m ;; k" := (bind m (fun x => match x with pat => k end))
  (at level 61, pat pattern, m at next level, right associativity) : py_scope.
Notation "m ;; k" := (bind m (fun _ => k))
  (at level 61, right associativity) : py_scope.

(** The result, the final object and the final world of a run. *)
Definition res_of {S A} (x : result A * S * World) : result A := fst (fst x).
Definition obj_of {S A} (x : result A * S * World) : S := snd (fst x).
Definition world_of {S A} (x : result A * S * World) : World := snd x.

(** A method's return value that is either a float or a string
    ([Union[str, float]]). *)
Inductive value : Type :=
| VFloat (x : PyFloat.float)
| VStr (s : string).

(** ** class Timer *)

Module Timer.
Import PyFloat.
Local Open Scope py_scope.

(** The attributes of a [Timer]; [command], [is_running] and [start_time]
    are the private [__command], [__is_running] and [__start_time].  A
    bound given as an integer (the default [-1]) is held as the float of
    the same value. *)
Record t : Type := mk {
  time_in_seconds : float;
  _saved_time : float;
  command : option Callable;
  is_running : bool;
  start_time : float
}.

Definition set_time_in_seconds (x : float) (self : t) : t :=
  mk x (_saved_time self) (command self) (is_running self) (start_time self).
Definition set_saved_time (x : float) (self : t) : t :=
  mk (time_in_seconds self) x (command self) (is_running self) (start_time self).
Definition set_is_running (b : bool) (self : t) : t :=
  mk (time_in_seconds self) (_saved_time self) (command self) b (start_time self).
Definition set_start_time (x : float) (self : t) : t :=
  mk (time_in_seconds self) (_saved_time self) (command self) (is_running self) x.

Definition view (self : t) : TimerView :=
  mkView (time_in_seconds self) (_saved_time self) (is_running self) (start_time self).

(** Calling [self.__command()]: the call is logged, and raises what the
    callable raises. *)
Definition call (f : Callable) : Py t unit :=
  fun self w =>
    let v := view self in
    (match f v with None => Ok tt | Some e => Raise e end, self, logged v w).

(** The default of [time_in_seconds] and of [new_time_in_seconds]: [-1]. *)
Definition unbounded : float := of_Z (-1).

(** [Timer(time_in_seconds, command)] *)
Definition __init__ (time_in_seconds : float) (command : option Callable) : t :=
  mk time_in_seconds zero command false zero.

(** [get_time(number_of_reserved_bits)] *)
Definition get_time (number_of_reserved_bits : Z) : Py t float :=
  self <- get ;;
  (if is_running self then
     now <- time ;;
     r <- lift (round (fsub now (start_time self)) number_of_reserved_bits) ;;
     modify (set_saved_time r)
   else ret tt) ;;
  self <- get ;;
  ret (_saved_time self).

(** [stop()] *)
Definition stop : Py t float :=
  get_time 2 ;;
  modify (set_is_running false) ;;
  self <- get ;;
  match command self with
  | Some f => call f
  | None => ret tt
  end ;;
  get_time 2.

(** [update()] *)
Definition update : Py t unit :=
  self <- get ;;
  if negb (is_running self) then ret tt
  else
    now <- time ;;
    modify (set_saved_time (fsub now (start_time self))) ;;
    self <- get ;;
    if fltb (_saved_time self) (time_in_seconds self)
       || fltb (time_in_seconds self) zero
    then ret tt
    else stop ;; ret tt.

(** [start(new_time_in_seconds)] *)
Definition start (new_time_in_seconds : float) : Py t unit :=
  (if fneb new_time_in_seconds unbounded
   then modify (set_time_in_seconds new_time_in_seconds)
   else ret tt) ;;
  modify (set_is_running true) ;;
  now <- time ;;
  modify (set_start_time now).

(** [pause()] *)
Definition pause : Py t unit :=
  modify (set_is_running false).

(** [go_on()] *)
Definition go_on : Py t unit :=
  modify (set_is_running true) ;;
  update.

(** Not a method: what [stop] does once its first [get_time] has returned.
    The running flag is cleared, then the callback is called, then the saved
    time is returned. *)
Definition committed (self : t) (w : World) : result float * t * World :=
  let s1 := set_is_running false self in
  match command s1 with
  | Some f =>
      (match f (view s1) with None => Ok (_saved_time s1) | Some e => Raise e end,
       s1, logged (view s1) w)
  | None => (Ok (_saved_time s1), s1, w)
  end.

End Timer.

(** ** class CountUpTimer *)

Module CountUpTimer.
Import PyFloat PyStr.
Local Open Scope string_scope.
Local Open Scope Z_scope.
Local Open Scope py_scope.

(** The attributes of a [CountUpTimer]; [is_running], [saved_time] and
    [start_time] are the private [__is_running], [__saved_time] and
    [__start_time]. *)
Record t : Type := mk {
  is_running : bool;
  saved_time : float;
  start_time : float;
  is_pause : bool
}.

Definition set_is_running (b : bool) (self : t) : t :=
  mk b (saved_time self) (start_time self) (is_pause self).
Definition set_saved_time (x : float) (self : t) : t :=
  mk (is_running self) x (start_time self) (is_pause self).
Definition set_start_time (x : float) (self : t) : t :=
  mk (is_running self) (saved_time self) x (is_pause self).
Definition set_is_pause (b : bool) (self : t) : t :=
  mk (is_running self) (saved_time self) (start_time self) b.

(** [CountUpTimer(start_time)]: the constructor reads the clock. *)
Definition __init__ (start_time : float) (w : World) : t * World :=
  (mk false zero (fadd start_time (clock w (ticks w))) false, tick w).

(** [start()] *)
Definition start : Py t unit :=
  self <- get ;;
  (if is_pause self then
     now <- time ;;
     modify (set_start_time now) ;;
     modify (set_saved_time zero)
   else ret tt) ;;
  modify (set_is_running true) ;;
  modify (set_is_pause true).

(** [_get_time()] *)
Definition _get_time : Py t float :=
  self <- get ;;
  if negb (is_running self) then ret (saved_time self)
  else
    now <- time ;;
    modify (set_saved_time (fsub now (start_time self))) ;;
    self <- get ;;
    ret (saved_time self).

(** [get_time(mode)] *)
Definition get_time (mode : string) : Py t value :=
  if negb (String.eqb mode "HHMMSS") then
    s <- _get_time ;; ret (VFloat s)
  else
    seconds <- _get_time ;;
    '(_min, sec) <- lift (divmod seconds (of_Z 60)) ;;
    m <- lift (to_int _min) ;;
    let hours := m / 60 in
    let _min := m mod 60 in
    let strmin := str_int _min in
    let strhours := str_int hours in
    let strsec := repr sec in
    let strmin := if _min <? 10 then "0" ++ strmin else strmin in
    let strhours := if hours <? 10 then "0" ++ strhours else strhours in
    let strsec := if fltb sec (of_Z 10) then "0" ++ strsec else strsec in
    let strsec := take 6 strsec in
    ret (VStr (strhours ++ ":" ++ strmin ++ ":" ++ strsec)).

(** [stop()] *)
Definition stop : Py t unit :=
  get_time "seconds" ;;
  modify (set_is_running false).

End CountUpTimer.

(** ** class CountDownTimer *)

Module CountDownTimer.
Import PyFloat PyStr.
Local Open Scope string_scope.
Local Open Scope Z_scope.
Local Open Scope py_scope.

Record t : Type := mk {
  seconds : float;
  timer : Timer.t
}.

Definition set_timer (tm : Timer.t) (self : t) : t := mk (seconds self) tm.

(** A method call on [self.timer]. *)
Definition on_timer {A} (m : Py Timer.t A) : Py t A :=
  fun self w =>
    let '(r, tm, w') := m (timer self) w in
    (r, set_timer tm self, w').

(** [list_time[i]] *)
Definition item (l : list string) (i : nat) : result string :=
  match nth_error l i with
  | Some x => Ok x
  | None => Raise IndexError
  end.

Definition rbind {A B} (r : result A) (f : A -> result B) : result B :=
  match r with
  | Ok a => f a
  | Raise e => Raise e
  end.

(** [CountDownTimer(str_start_time, command)]: the object, or the
    exception that left none. *)
Definition __init__ (str_start_time : string) (command : option Callable)
  : result t :=
  let list_time := split ":" str_start_time in
  rbind (item list_time 0) (fun h =>
  rbind (int_of_str h) (fun hours =>
  rbind (item list_time 1) (fun mi =>
  rbind (int_of_str mi) (fun _min =>
  rbind (item list_time 2) (fun s =>
  rbind (float_of_str s) (fun sec =>
  rbind (of_int (hours * 3600 + _min * 60)) (fun whole =>
  let seconds := fadd whole sec in
  match command with
  | Some f => Ok (mk seconds (Timer.__init__ seconds (Some f)))
  | None => Ok (mk seconds (Timer.__init__ seconds None))
  end))))))).

(** [start()] *)
Definition start : Py t unit := on_timer (Timer.start Timer.unbounded).

(** [update()] *)
Definition update : Py t unit := on_timer Timer.update.

(** [pause()] *)
Definition pause : Py t unit := on_timer Timer.pause.

(** [go_on()] *)
Definition go_on : Py t unit := on_timer Timer.go_on ;; update.

(** [get_time(mode)] *)
Definition get_time (mode : string) : Py t value :=
  self <- get ;;
  let saved_time := fsub (seconds self) (Timer._saved_time (timer self)) in
  if negb (String.eqb mode "HHMMSS") then ret (VFloat saved_time)
  else
    '(_min, sec) <- lift (divmod saved_time (of_Z 60)) ;;
    m <- lift (to_int _min) ;;
    let hours := m / 60 in
    let _min := m mod 60 in
    let strmin := str_int _min in
    let strhours := str_int hours in
    let strsec := repr sec in
    let strmin := if _min <? 10 then "0" ++ strmin else strmin in
    let strhours := if hours <? 10 then "0" ++ strhours else strhours in
    let strsec := if fltb sec (of_Z 10) then "0" ++ strsec else strsec in
    let strsec := take 6 strsec in
    ret (VStr (strhours ++ ":" ++ strmin ++ ":" ++ strsec)).

(** [stop()] *)
Definition stop : Py t unit := on_timer Timer.stop ;; ret tt.

End CountDownTimer.

(** ** Callers of a [Timer]

    A caller drives a timer by a sequence of method calls, going on after a
    call that raised (as a caller that catches the exception does). *)

Module Caller.
Import PyFloat.

Inductive op : Type :=
| Start (new_time_in_seconds : float)
| Update
| Pause
| GoOn
| GetTime (number_of_reserved_bits : Z)
| Stop.

Definition forget {A} (x : result A * Timer.t * World) : Timer.t * World :=
  (obj_of x, world_of x).

Definition run_op (o : op) (self : Timer.t) (w : World) : Timer.t * World :=
  match o with
  | Start new => forget (Timer.start new self w)
  | Update => forget (Timer.update self w)
  | Pause => forget (Timer.pause self w)
  | GoOn => forget (Timer.go_on self w)
  | GetTime n => forget (Timer.get_time n self w)
  | Stop => forget (Timer.stop self w)
  end.

Fixpoint run_ops (os : list op) (self : Timer.t) (w : World) : Timer.t * World :=
  match os with
  | [] => (self, w)
  | o :: os' => let '(self', w') := run_op o self w in run_ops os' self' w'
  end.

(** [n] successive calls of [update()]. *)
Definition poll (n : nat) : Timer.t -> World -> Timer.t * World :=
  run_ops (repeat Update n).

Definition is_start (o : op) : bool :=
  match o with Start _ => true | _ => false end.

Definition is_stop (o : op) : bool :=
  match o with Stop => true | _ => false end.

(** A [start] that keeps the timer unbounded: its argument is negative
    (the default [-1] leaves the bound as it is, another negative number
    becomes the bound). *)
Definition keeps_unbounded (o : op) : bool :=
  match o with
  | Start new => fltb new zero
  | _ => true
  end.

(** The elapsed time [update] recomputes at the [i]-th reading of the
    clock from now on. *)
Definition elapsed (self : Timer.t) (w : World) (i : nat) : float :=
  fsub (clock w (ticks w + i)) (Timer.start_time self).

(** A clock that returns the readings of a list, then its last one for
    ever. *)
Definition clock_of (readings : list float) (last : float) : nat -> float :=
  fun i => nth i readings last.

End Caller.

(** ** The claim about malformed durations, as the specification words it *)

Module Wording.
Import PyStr.

(** "Matches the H:M:S form with parseable integer hours, integer minutes
    and float seconds": exactly three fields between colons, each
    accepted by its conversion. *)
Definition matches_hms (s : string) : bool :=
  match split ":" s with
  | [h; m; x] =>
      is_ok (int_of_str h) && is_ok (int_of_str m) && is_ok (float_of_str x)
  | _ => false
  end.

End Wording.

(** ** Sample callbacks, clocks and values *)

Module Sample.
Import PyFloat.

(** A callback that returns, and one that raises. *)
Definition quiet : Callable := fun _ => None.
Definition failing : Callable := fun _ => Some (CallbackError 0).

(** 0.5, 1.5 and 2.5 *)
Definition f0_5 : float := S754_finite false 4503599627370496 (-53).
Definition f1_5 : float := S754_finite false 6755399441055744 (-52).
Definition f2_5 : float := S754_finite false 5629499534213120 (-51).

(** The float nearest to 3661.2, and 3723.5 *)
Definition f3661_2 : float := S754_finite false 8051063943226982 (-41).
Definition f3723_5 : float := S754_finite false 8188063092047872 (-41).

(** A world whose clock reads 0.0, 0.5, 1.5, then 2.5 for ever, and in
    which nothing has been called yet. *)
Definition w0 : World :=
  mkWorld (Caller.clock_of [zero; f0_5; f1_5; f2_5] f2_5) 0 [].

End Sample.

(** ** Callers of the other two timers *)

Module UpCaller.
Import PyFloat.

Inductive op : Type :=
| Start
| GetTime (mode : string)
| Stop.

Definition forget {A} (x : result A * CountUpTimer.t * World)
  : CountUpTimer.t * World :=
  (obj_of x, world_of x).

Definition run_op (o : op) (self : CountUpTimer.t) (w : World)
  : CountUpTimer.t * World :=
  match o with
  | Start => forget (CountUpTimer.start self w)
  | GetTime mode => forget (CountUpTimer.get_time mode self w)
  | Stop => forget (CountUpTimer.stop self w)
  end.

Fixpoint run_ops (os : list op) (self : CountUpTimer.t) (w : World)
  : CountUpTimer.t * World :=
  match os with
  | [] => (self, w)
  | o :: os' => let '(self', w') := run_op o self w in run_ops os' self' w'
  end.

Definition is_start (o : op) : bool :=
  match o with Start => true | _ => false end.

Definition is_get_time (o : op) : bool :=
  match o with GetTime _ => true | _ => false end.

End UpCaller.

Module DownCaller.
Import PyFloat.

Inductive op : Type :=
| Start
| Update
| Pause
| GoOn
| GetTime (mode : string)
| Stop.

Definition forget {A} (x : result A * CountDownTimer.t * World)
  : CountDownTimer.t * World :=
  (obj_of x, world_of x).

Definition run_op (o : op) (self : CountDownTimer.t) (w : World)
  : CountDownTimer.t * World :=
  match o with
  | Start => forget (CountDownTimer.start self w)
  | Update => forget (CountDownTimer.update self w)
  | Pause => forget (CountDownTimer.pause self w)
  | GoOn => forget (CountDownTimer.go_on self w)
  | GetTime mode => forget (CountDownTimer.get_time mode self w)
  | Stop => forget (CountDownTimer.stop self w)
  end.

Fixpoint run_ops (os : list op) (self : CountDownTimer.t) (w : World)
  : CountDownTimer.t * World :=
  match os with
  | [] => (self, w)
  | o :: os' => let '(self', w') := run_op o self w in run_ops os' self' w'
  end.

Definition is_stop (o : op) : bool :=
  match o with Stop => true | _ => false end.

Definition is_get_time (o : op) : bool :=
  match o with GetTime _ => true | _ => false end.

(** A call that neither polls nor stops: [start], [pause] or [get_time]. *)
Definition unpolled (o : op) : bool :=
  match o with
  | Start | Pause | GetTime _ => true
  | _ => false
  end.

End DownCaller.

(** ** Calls that neither start, resume nor stop a [Timer] *)

Module Idle.

Definition passive (o : Caller.op) : bool :=
  match o with
  | Caller.Update | Caller.Pause | Caller.GetTime _ => true
  | _ => false
  end.

(** A wall clock that is set back: it reads 0.0, 2.5, then 0.5 for ever. *)
Definition set_back : World :=
  mkWorld (Caller.clock_of [PyFloat.zero; Sample.f2_5; Sample.f0_5] Sample.f0_5) 0 [].

End Idle.

(** * Facts *)

(** ** Binary64 arithmetic *)

Module FloatFacts.
Import PyFloat.

Lemma compare_cont_antisym_eq p q :
  Pos.compare_cont Eq q p = CompOpp (Pos.compare_cont Eq p q).
Proof. apply (Pos.compare_antisym p q). Qed.

Lemma SFcompare_antisym x y :
  SFcompare y x = option_map CompOpp (SFcompare x y).
Proof.
  destruct x as [sx|sx| |sx mx ex], y as [sy|sy| |sy my ey]; simpl; try reflexivity;
    try (destruct sx; reflexivity); try (destruct sy; reflexivity);
    try (destruct sx, sy; reflexivity).
  destruct sx, sy; simpl; try reflexivity;
    rewrite (Z.compare_antisym ex ey), compare_cont_antisym_eq;
    destruct (ex ?= ey); simpl; try reflexivity;
    destruct (Pos.compare_cont Eq mx my); reflexivity.
Qed.

Lemma fltb_negb_fleb x y :
  is_nan x = false -> is_nan y = false -> fltb x y = negb (fleb y x).
Proof.
  intros Hx Hy. unfold fltb, fleb, SFltb, SFleb.
  rewrite (SFcompare_antisym x y).
  destruct x, y; try discriminate; simpl;
    repeat match goal with |- context [if ?b then _ else _] => destruct b end;
    try reflexivity;
    repeat match goal with
           | |- context [match ?c with Eq => _ | Lt => _ | Gt => _ end] =>
               destruct c; simpl
           end;
    reflexivity.
Qed.

Lemma digits2_pos_log2 p : Zpos (digits2_pos p) = Z.log2 (Zpos p) + 1.
Proof.
  assert (H : digits2_pos p = Pos.size p) by (induction p; simpl; congruence).
  rewrite H. destruct p; simpl; lia.
Qed.

Lemma Zdigits2_log2 m : 0 < m -> Zdigits2 m = Z.log2 m + 1.
Proof. destruct m; try lia. intros _. apply digits2_pos_log2. Qed.

Lemma Zdigits2_nonneg m : 0 <= Zdigits2 m.
Proof. destruct m; simpl; lia. Qed.

Lemma Zdigits2_upper m : 0 <= m -> m < 2 ^ Zdigits2 m.
Proof.
  intros Hm. destruct (Z.eq_dec m 0) as [->|Hn]; [reflexivity|].
  rewrite Zdigits2_log2 by lia.
  apply (Z.log2_spec m). lia.
Qed.

Lemma Zdigits2_lower m : 0 < m -> 2 ^ (Zdigits2 m - 1) <= m.
Proof.
  intros Hm. rewrite Zdigits2_log2 by lia.
  replace (Z.log2 m + 1 - 1) with (Z.log2 m) by lia.
  apply (Z.log2_spec m). lia.
Qed.

Lemma Zdigits2_bound m d : 0 <= m -> 0 <= d -> m < 2 ^ d -> Zdigits2 m <= d.
Proof.
  intros Hm Hd Hlt. destruct (Z.eq_dec m 0) as [->|Hn]; [simpl; lia|].
  rewrite Zdigits2_log2 by lia.
  apply Z.log2_lt_pow2 in Hlt; lia.
Qed.

Lemma Zdigits2_succ m : 0 <= m -> Zdigits2 (m + 1) <= Zdigits2 m + 1.
Proof.
  intros Hm. apply Zdigits2_bound; [lia | pose proof (Zdigits2_nonneg m); lia |].
  pose proof (Zdigits2_upper m Hm) as H.
  rewrite Z.pow_add_r by (pose proof (Zdigits2_nonneg m); lia).
  change (2 ^ 1) with 2. lia.
Qed.

Lemma iter_pos_nat {A} (f : A -> A) p : forall x,
  iter_pos f p x = Nat.iter (Pos.to_nat p) f x.
Proof.
  induction p as [p IH|p IH|]; intros x; simpl iter_pos.
  - rewrite !IH, Pos2Nat.inj_xI.
    replace (S (2 * Pos.to_nat p)) with (Pos.to_nat p + (Pos.to_nat p + 1))%nat by lia.
    rewrite !Nat.iter_add. reflexivity.
  - rewrite !IH, Pos2Nat.inj_xO.
    replace (2 * Pos.to_nat p)%nat with (Pos.to_nat p + Pos.to_nat p)%nat by lia.
    rewrite Nat.iter_add. reflexivity.
  - reflexivity.
Qed.

Lemma shr_1_m r : 0 <= shr_m r -> shr_m (shr_1 r) = shr_m r / 2.
Proof.
  destruct r as [m r s]; simpl. intros Hm.
  destruct m as [|p|p]; try lia; [reflexivity|].
  destruct p; simpl shr_m.
  - rewrite Pos2Z.inj_xI. apply Z.div_unique with 1; lia.
  - rewrite Pos2Z.inj_xO. apply Z.div_unique with 0; lia.
  - reflexivity.
Qed.

Lemma shr_iter_m n : forall r, 0 <= shr_m r ->
  shr_m (Nat.iter n shr_1 r) = shr_m r / 2 ^ Z.of_nat n.
Proof.
  induction n as [|n IH]; intros r Hr.
  - simpl. now rewrite Z.div_1_r.
  - simpl Nat.iter. rewrite shr_1_m; rewrite IH by assumption.
    + rewrite Z.div_div by lia.
      rewrite Nat2Z.inj_succ, Z.pow_succ_r by lia.
      f_equal. lia.
    + apply Z.div_pos; lia.
Qed.

Lemma shr_m_spec r e n : 0 <= shr_m r ->
  shr_m (fst (shr r e n)) = shr_m r / 2 ^ Z.max n 0 /\ snd (shr r e n) = e + Z.max n 0.
Proof.
  intros Hr. destruct n as [|p|p]; simpl shr; simpl fst; simpl snd.
  - rewrite Z.div_1_r. lia.
  - rewrite iter_pos_nat, shr_iter_m by assumption.
    rewrite positive_nat_Z. split; [f_equal; f_equal; lia | lia].
  - rewrite Z.div_1_r. lia.
Qed.

Lemma shr_record_of_loc_m m l : shr_m (shr_record_of_loc m l) = m.
Proof. destruct l as [|[]]; reflexivity. Qed.

Lemma fexp_eq x : fexp prec emax x = Z.max (x - 53) (-1074).
Proof. reflexivity. Qed.

Lemma shr_fexp_spec m e l : 0 <= m ->
  let n := Z.max (fexp prec emax (Zdigits2 m + e) - e) 0 in
  shr_m (fst (shr_fexp prec emax m e l)) = m / 2 ^ n
  /\ snd (shr_fexp prec emax m e l) = e + n.
Proof.
  intros Hm n. unfold shr_fexp.
  pose proof (shr_m_spec (shr_record_of_loc m l) e (fexp prec emax (Zdigits2 m + e) - e)) as H.
  rewrite shr_record_of_loc_m in H. apply H. assumption.
Qed.

Lemma div_pow2_digits m n : 0 <= m -> 0 <= n ->
  Zdigits2 (m / 2 ^ n) <= Z.max (Zdigits2 m - n) 0.
Proof.
  intros Hm Hn.
  pose proof (Zdigits2_nonneg m) as Hd.
  pose proof (Zdigits2_upper m Hm) as Hu.
  assert (Hp : 0 < 2 ^ n) by (apply Z.pow_pos_nonneg; lia).
  apply Zdigits2_bound; [apply Z.div_pos; lia | lia |].
  apply Z.div_lt_upper_bound; [lia|].
  rewrite <- Z.pow_add_r by lia.
  eapply Z.lt_le_trans; [exact Hu|].
  apply Z.pow_le_mono_r; lia.
Qed.

Lemma shr_fexp_digits m e l : 0 <= m ->
  0 <= shr_m (fst (shr_fexp prec emax m e l))
  /\ Zdigits2 (shr_m (fst (shr_fexp prec emax m e l))) <= 53.
Proof.
  intros Hm. destruct (shr_fexp_spec m e l Hm) as [H1 _]. rewrite H1.
  set (n := Z.max _ 0).
  assert (Hn : 0 <= n) by (unfold n; lia).
  split; [apply Z.div_pos; [lia | apply Z.pow_pos_nonneg; lia]|].
  pose proof (div_pow2_digits m n Hm Hn) as Hd.
  pose proof (Zdigits2_nonneg m).
  unfold n in *. rewrite fexp_eq in *. lia.
Qed.

Lemma round_nearest_even_bounds m l : 0 <= m ->
  m <= round_nearest_even m l <= m + 1.
Proof.
  intros Hm. destruct l as [|[]]; simpl; try lia.
  destruct (Z.even m); lia.
Qed.

(** What [binary_round_aux] returns on a non-negative mantissa is never a
    NaN, and when finite it fits the format. *)
Lemma binary_round_aux_shape s m e l : 0 <= m ->
  match binary_round_aux prec emax s m e l with
  | S754_nan => False
  | S754_finite _ m' e' => Zpos (digits2_pos m') <= 53 /\ e' <= 971
  | _ => True
  end.
Proof.
  intros Hm. unfold binary_round_aux.
  destruct (shr_fexp prec emax m e l) as [mrs' e'] eqn:E1.
  pose proof (shr_fexp_digits m e l Hm) as [Hn1 _]. rewrite E1 in Hn1. simpl in Hn1.
  pose proof (round_nearest_even_bounds (shr_m mrs') (loc_of_shr_record mrs') Hn1) as Hr.
  set (m2 := round_nearest_even _ _) in *.
  destruct (shr_fexp prec emax m2 e' loc_Exact) as [mrs'' e''] eqn:E2.
  pose proof (shr_fexp_digits m2 e' loc_Exact ltac:(lia)) as [Hn2 Hd2].
  rewrite E2 in Hn2, Hd2. simpl in Hn2, Hd2.
  destruct (shr_m mrs'') as [|p|p]; try lia.
  destruct (Z.leb_spec e'' (emax - prec)) as [Hle|Hgt]; [|exact I].
  split; [exact Hd2 | unfold emax, prec in Hle; lia].
Qed.

Lemma Zdigits2_mono a b : 0 <= a <= b -> Zdigits2 a <= Zdigits2 b.
Proof.
  intros H. apply Zdigits2_bound; [lia | apply Zdigits2_nonneg|].
  pose proof (Zdigits2_upper b ltac:(lia)). lia.
Qed.

(** A value below [2^1023] held at an exponent the format allows does not
    round to an infinity. *)
Lemma binary_round_aux_small s m e l :
  0 <= m -> e <= 971 -> Zdigits2 m + e <= 1023 ->
  is_inf (binary_round_aux prec emax s m e l) = false.
Proof.
  intros Hm He HD. unfold binary_round_aux.
  destruct (shr_fexp_spec m e l Hm) as [Hm1 He1].
  destruct (shr_fexp prec emax m e l) as [mrs' e1]. simpl in Hm1, He1.
  set (n1 := Z.max (fexp prec emax (Zdigits2 m + e) - e) 0) in *.
  assert (Hn1 : 0 <= n1) by (unfold n1; lia).
  assert (H0 : 0 <= shr_m mrs').
  { rewrite Hm1. apply Z.div_pos; [lia | apply Z.pow_pos_nonneg; lia]. }
  pose proof (div_pow2_digits m n1 Hm Hn1) as Hd1. rewrite <- Hm1 in Hd1.
  pose proof (round_nearest_even_bounds (shr_m mrs') (loc_of_shr_record mrs') H0) as Hr.
  set (m2 := round_nearest_even _ _) in *.
  assert (Hd2 : Zdigits2 m2 <= Zdigits2 (shr_m mrs') + 1).
  { etransitivity; [apply (Zdigits2_mono m2 (shr_m mrs' + 1)); lia|].
    apply Zdigits2_succ; lia. }
  destruct (shr_fexp_spec m2 e1 loc_Exact ltac:(lia)) as [Hm3 He3].
  destruct (shr_fexp prec emax m2 e1 loc_Exact) as [mrs'' e2]. simpl in Hm3, He3.
  assert (He2 : e2 <= 971).
  { pose proof (Zdigits2_nonneg m). pose proof (Zdigits2_nonneg m2).
    unfold n1 in *. rewrite fexp_eq in *. lia. }
  destruct (shr_m mrs''); try reflexivity.
  destruct (Z.leb_spec e2 (emax - prec)) as [_|Hgt]; [reflexivity|].
  unfold emax, prec in Hgt. lia.
Qed.

Lemma shr_1_exact m : 0 <= m -> (2 | m) ->
  shr_1 (Build_shr_record m false false) = Build_shr_record (m / 2) false false.
Proof.
  intros Hm [k Hk].
  destruct m as [|[p|p|]|]; try lia; simpl shr_1.
  - reflexivity.
  - f_equal. rewrite Pos2Z.inj_xO. apply Z.div_unique with 0; lia.
Qed.

Lemma shr_iter_exact n : forall m, 0 <= m -> (2 ^ Z.of_nat n | m) ->
  Nat.iter n shr_1 (Build_shr_record m false false)
  = Build_shr_record (m / 2 ^ Z.of_nat n) false false.
Proof.
  induction n as [|n IH]; intros m Hm Hdiv.
  - simpl. now rewrite Z.div_1_r.
  - rewrite Nat.iter_succ_r.
    rewrite Nat2Z.inj_succ, Z.pow_succ_r in * by lia.
    destruct Hdiv as [k Hk].
    rewrite shr_1_exact; [| lia | exists (k * 2 ^ Z.of_nat n); lia].
    rewrite IH.
    + rewrite Z.div_div by lia. reflexivity.
    + apply Z.div_pos; lia.
    + exists k. subst m. replace (k * (2 * 2 ^ Z.of_nat n)) with (k * 2 ^ Z.of_nat n * 2) by lia.
      now rewrite Z.div_mul by lia.
Qed.

Lemma shr_fexp_exact m e : 0 <= m ->
  let n := Z.max (fexp prec emax (Zdigits2 m + e) - e) 0 in
  (2 ^ n | m) ->
  fst (shr_fexp prec emax m e loc_Exact) = Build_shr_record (m / 2 ^ n) false false.
Proof.
  intros Hm n Hdiv. unfold shr_fexp. simpl shr_record_of_loc.
  fold n. unfold n in *. clear n.
  destruct (fexp prec emax (Zdigits2 m + e) - e) as [|p|p]; simpl shr; simpl fst.
  - simpl. now rewrite Z.div_1_r.
  - rewrite iter_pos_nat.
    replace (Z.max (Z.pos p) 0) with (Z.of_nat (Pos.to_nat p)) in * by lia.
    now apply shr_iter_exact.
  - simpl. now rewrite Z.div_1_r.
Qed.

(** An exactly representable value does not round to an infinity either. *)
Lemma binary_round_aux_exact s m e :
  0 <= m -> e <= 971 -> Zdigits2 m + e <= 1024 ->
  (2 ^ Z.max (fexp prec emax (Zdigits2 m + e) - e) 0 | m) ->
  is_inf (binary_round_aux prec emax s m e loc_Exact) = false.
Proof.
  intros Hm He HD Hdiv. unfold binary_round_aux.
  pose proof (shr_fexp_exact m e Hm Hdiv) as Hx.
  destruct (shr_fexp_spec m e loc_Exact Hm) as [_ He1].
  destruct (shr_fexp prec emax m e loc_Exact) as [mrs' e1]. simpl in Hx, He1.
  subst mrs'. simpl shr_m. simpl loc_of_shr_record. simpl round_nearest_even.
  set (n1 := Z.max (fexp prec emax (Zdigits2 m + e) - e) 0) in *.
  assert (Hn1 : 0 <= n1) by (unfold n1; lia).
  pose proof (div_pow2_digits m n1 Hm Hn1) as Hd1.
  set (m1 := m / 2 ^ n1) in *.
  assert (H0 : 0 <= m1) by (apply Z.div_pos; [lia | apply Z.pow_pos_nonneg; lia]).
  destruct (shr_fexp_spec m1 e1 loc_Exact H0) as [Hm3 He3].
  destruct (shr_fexp prec emax m1 e1 loc_Exact) as [mrs'' e2]. simpl in Hm3, He3.
  assert (He2 : e2 <= 971).
  { pose proof (Zdigits2_nonneg m). pose proof (Zdigits2_nonneg m1).
    unfold n1 in *. rewrite fexp_eq in *. lia. }
  destruct (shr_m mrs''); try reflexivity.
  destruct (Z.leb_spec e2 (emax - prec)) as [_|Hgt]; [reflexivity|].
  unfold emax, prec in Hgt. lia.
Qed.

(** The quotient [SFdiv_core_binary] hands to the rounding, for integers
    taken at exponent 0. *)
Lemma div_core_spec k up : 0 <= k -> 0 < up ->
  exists s, 0 <= s
    /\ s = - Z.min (fexp prec emax (Zdigits2 k - Zdigits2 up)) 0
    /\ SFdiv_core_binary prec emax k 0 up 0
       = (k * 2 ^ s / up, - s, new_location up ((k * 2 ^ s) mod up)).
Proof.
  intros Hk Hup. unfold SFdiv_core_binary.
  rewrite !Z.add_0_r. change (0 - 0) with 0.
  set (e' := Z.min (fexp prec emax (Zdigits2 k - Zdigits2 up)) 0).
  exists (- e'). split; [unfold e'; lia|]. split; [reflexivity|].
  replace (0 - e') with (- e') by lia.
  assert (Hm : match - e' with
               | Z.pos _ => Z.shiftl k (- e')
               | 0 => k
               | Z.neg _ => 0
               end = k * 2 ^ (- e')).
  { assert (0 <= - e') by (unfold e'; lia).
    destruct (- e') as [|p|p] eqn:E; try lia.
    apply Z.shiftl_mul_pow2. lia. }
  rewrite Hm.
  unfold Z.div, Z.modulo.
  destruct (Z.div_eucl (k * 2 ^ (- e')) up) as [q r].
  now rewrite Z.opp_involutive.
Qed.

Lemma of_ratio_small s k up :
  0 <= k -> 0 < up -> k < 2 ^ 54 * up -> is_inf (of_ratio s k up) = false.
Proof.
  intros Hk Hup Hlt. unfold of_ratio.
  destruct (div_core_spec k up Hk Hup) as (sh & Hsh & _ & Heq).
  destruct k as [|p|p]; [reflexivity| |lia].
  rewrite Heq.
  assert (Hpow : 0 < 2 ^ sh) by (apply Z.pow_pos_nonneg; lia).
  apply binary_round_aux_small.
  - apply Z.div_pos; nia.
  - lia.
  - assert (Hq : Z.pos p * 2 ^ sh / up < 2 ^ (54 + sh)).
    { apply Z.div_lt_upper_bound; [lia|].
      rewrite Z.pow_add_r by lia. nia. }
    pose proof (Zdigits2_bound (Z.pos p * 2 ^ sh / up) (54 + sh)
                  ltac:(apply Z.div_pos; nia) ltac:(lia) Hq).
    lia.
Qed.

Lemma new_location_0 nb : new_location nb 0 = loc_Exact.
Proof. unfold new_location. destruct (Z.even nb); reflexivity. Qed.

Lemma Zdigits2_mul_pow2 m n : 0 < m -> 0 <= n ->
  Zdigits2 (m * 2 ^ n) = Zdigits2 m + n.
Proof.
  intros Hm Hn.
  assert (0 < 2 ^ n) by (apply Z.pow_pos_nonneg; lia).
  rewrite !Zdigits2_log2 by nia.
  rewrite Z.log2_mul_pow2 by lia. lia.
Qed.

Lemma of_ratio_exact s m e up :
  0 < m -> Zdigits2 m <= 53 -> 0 <= e <= 971 -> 0 < up ->
  is_inf (of_ratio s (m * 2 ^ e * up) up) = false.
Proof.
  intros Hm Hd He Hup.
  assert (Hpe : 0 < 2 ^ e) by (apply Z.pow_pos_nonneg; lia).
  assert (Hk : 0 < m * 2 ^ e * up) by nia.
  unfold of_ratio.
  destruct (div_core_spec (m * 2 ^ e * up) up ltac:(lia) Hup) as (sh & Hsh & _ & Heq).
  destruct (m * 2 ^ e * up) as [|p|p] eqn:Ek; try lia.
  rewrite Heq, <- Ek. clear Heq.
  assert (Hps : 0 < 2 ^ sh) by (apply Z.pow_pos_nonneg; lia).
  replace (m * 2 ^ e * up * 2 ^ sh) with (m * 2 ^ (e + sh) * up)
    by (rewrite Z.pow_add_r by lia; ring).
  rewrite Z.div_mul, Z.mod_mul, new_location_0 by lia.
  assert (HD : Zdigits2 (m * 2 ^ (e + sh)) = Zdigits2 m + (e + sh))
    by (apply Zdigits2_mul_pow2; lia).
  pose proof (Zdigits2_nonneg m) as Hdn.
  apply binary_round_aux_exact.
  - assert (0 < 2 ^ (e + sh)) by (apply Z.pow_pos_nonneg; lia). nia.
  - lia.
  - lia.
  - rewrite HD, fexp_eq.
    set (n := Z.max _ 0).
    assert (Hn : 0 <= n <= e + sh) by (unfold n; lia).
    exists (m * 2 ^ (e + sh - n)).
    rewrite <- Z.mul_assoc, <- Z.pow_add_r by lia.
    do 2 f_equal. lia.
Qed.

Lemma round_half_even_upper p q : 0 <= p -> 0 < q ->
  0 <= round_half_even p q <= p / q + 1.
Proof.
  intros Hp Hq. unfold round_half_even.
  assert (0 <= p / q) by (apply Z.div_pos; lia).
  destruct (2 * (p mod q) ?= q); [destruct (Z.even (p / q))| |]; lia.
Qed.

Lemma round_half_even_exact p : round_half_even p 1 = p.
Proof.
  unfold round_half_even. rewrite Z.mod_1_r, Z.div_1_r. reflexivity.
Qed.

(** [round(x, n)] never raises for [n >= 0]. *)
Lemma round_ok x n : fits x -> 0 <= n -> exists r, round x n = Ok r.
Proof.
  intros Hx Hn. destruct x as [s0|s0| |s m e]; try (simpl; eauto; fail).
  destruct Hx as [Hd He]. unfold round.
  destruct (NDIGITS_MAX <? n); [eauto|].
  destruct (Z.ltb_spec n NDIGITS_MIN) as [Hlt|_]; [unfold NDIGITS_MIN in Hlt; lia|].
  rewrite (Z.max_l n 0), (Z.max_r (- n) 0) by lia.
  change (10 ^ 0) with 1. rewrite !Z.mul_1_r.
  set (up := 10 ^ n).
  assert (Hup : 0 < up) by (apply Z.pow_pos_nonneg; lia).
  match goal with |- exists r, (if is_inf ?t then _ else _) = _ =>
    assert (Hni : is_inf t = false); [| rewrite Hni; eauto] end.
  destruct (Z.le_gt_cases 0 e) as [Hpos|Hneg].
  - rewrite (Z.max_l e 0), (Z.max_r (- e) 0) by lia.
    change (2 ^ 0) with 1. rewrite round_half_even_exact.
    apply of_ratio_exact; simpl Zdigits2; lia.
  - rewrite (Z.max_r e 0), (Z.max_l (- e) 0) by lia.
    change (2 ^ 0) with 1. rewrite Z.mul_1_r.
    assert (Hq : 0 < 2 ^ (- e)) by (apply Z.pow_pos_nonneg; lia).
    pose proof (round_half_even_upper (Z.pos m * up) (2 ^ (- e)) ltac:(lia) Hq) as Hk.
    assert (Hdiv : Z.pos m * up / 2 ^ (- e) <= Z.pos m * up).
    { apply Z.div_le_upper_bound; [lia|]. nia. }
    assert (Hm : Z.pos m < 2 ^ 53).
    { pose proof (Zdigits2_upper (Z.pos m) ltac:(lia)) as Hu. simpl Zdigits2 in Hu.
      eapply Z.lt_le_trans; [exact Hu|]. apply Z.pow_le_mono_r; lia. }
    apply of_ratio_small; [lia | lia |].
    change (2 ^ 54) with (2 * 2 ^ 53). nia.
Qed.

End FloatFacts.

(** ** class Timer *)

Module TimerFacts.
Import PyFloat FloatFacts Timer Caller.

(** *** Clock readings and their differences *)

Lemma is_double_fits x : is_double x = true -> fits x.
Proof.
  unfold is_double. intros H. apply andb_prop in H as [_ H].
  destruct x as [| | |s m e]; simpl; auto.
  simpl in H. unfold bounded, canonical_mantissa in H.
  apply andb_prop in H as [Hc He].
  apply Z.eqb_eq in Hc. apply Z.leb_le in He.
  rewrite fexp_eq in Hc. unfold emax, prec in He. lia.
Qed.

Lemma is_double_finite x : is_double x = true -> is_finite x = true.
Proof. unfold is_double. intros H. now apply andb_prop in H. Qed.

Lemma binary_normalize_shape m e :
  is_nan (binary_normalize prec emax m e false) = false
  /\ fits (binary_normalize prec emax m e false).
Proof.
  destruct m as [|p|p]; simpl binary_normalize; [simpl; auto| |];
    unfold binary_round;
    match goal with |- context [shl_align ?a ?b ?c] =>
      destruct (shl_align a b c) as [mz ez] end;
    match goal with |- context [binary_round_aux ?p ?q ?s ?m ?e ?l] =>
      pose proof (binary_round_aux_shape s m e l ltac:(lia)) as H;
      destruct (binary_round_aux p q s m e l) end;
    simpl; auto; contradiction.
Qed.

(** The difference of two clock readings is a number, and it fits the
    format. *)
Lemma fsub_shape x y :
  is_double x = true -> is_double y = true ->
  is_nan (fsub x y) = false /\ fits (fsub x y).
Proof.
  intros Hx Hy.
  pose proof (is_double_fits x Hx) as Fx. pose proof (is_double_fits y Hy) as Fy.
  apply is_double_finite in Hx. apply is_double_finite in Hy.
  destruct x as [sx|sx| |sx mx ex], y as [sy|sy| |sy my ey]; try discriminate;
    unfold fsub; simpl SFsub.
  - destruct sx, sy; simpl; auto.
  - simpl; auto.
  - simpl; auto.
  - apply binary_normalize_shape.
Qed.

(** The sample clock only returns doubles. *)
Lemma sample_clock_double : forall i, is_double (clock Sample.w0 i) = true.
Proof.
  intros i. unfold Sample.w0, clock, clock_of.
  do 4 (destruct i as [|i]; [reflexivity|]). destruct i; reflexivity.
Qed.

(** *** The methods, one equation each *)

Lemma get_time_stopped n self w :
  is_running self = false -> get_time n self w = (Ok (_saved_time self), self, w).
Proof. intros H. unfold get_time, bind, get. cbn. rewrite H. reflexivity. Qed.

Lemma get_time_running n self w :
  is_running self = true ->
  get_time n self w =
  match round (fsub (clock w (ticks w)) (start_time self)) n with
  | Ok r => (Ok r, set_saved_time r self, tick w)
  | Raise e => (Raise e, self, tick w)
  end.
Proof.
  intros H. unfold get_time, bind, get, time, lift, modify. cbn. rewrite H. cbn.
  destruct (round _ n); reflexivity.
Qed.

Lemma stop_eq self w :
  stop self w =
  match get_time 2 self w with
  | (Ok _, s0, w0) => committed s0 w0
  | (Raise e, s0, w0) => (Raise e, s0, w0)
  end.
Proof.
  unfold stop. unfold bind at 1.
  destruct (get_time 2 self w) as [[[r|e] s0] w0]; [|reflexivity].
  unfold committed, bind, modify, get, call, ret. cbn.
  destruct (command s0) as [f|]; cbn.
  - destruct (f _); reflexivity.
  - reflexivity.
Qed.

Lemma stop_running self w r :
  is_running self = true ->
  round (elapsed self w 0) 2 = Ok r ->
  stop self w = committed (set_saved_time r self) (tick w).
Proof.
  intros Hr Hround. rewrite stop_eq, get_time_running by assumption.
  unfold elapsed in Hround. rewrite Nat.add_0_r in Hround. now rewrite Hround.
Qed.

Lemma stop_stopped self w :
  is_running self = false -> stop self w = committed self w.
Proof. intros Hr. rewrite stop_eq, get_time_stopped by assumption. reflexivity. Qed.

Lemma update_eq self w :
  update self w =
  if negb (is_running self) then (Ok tt, self, w)
  else
    let e := fsub (clock w (ticks w)) (start_time self) in
    let s1 := set_saved_time e self in
    if fltb e (time_in_seconds self) || fltb (time_in_seconds self) zero
    then (Ok tt, s1, tick w)
    else
      match stop s1 (tick w) with
      | (Ok _, s2, w2) => (Ok tt, s2, w2)
      | (Raise x, s2, w2) => (Raise x, s2, w2)
      end.
Proof.
  unfold update, bind, get, time, modify, ret. cbn.
  destruct (is_running self); cbn; [|reflexivity].
  destruct (fltb _ _ || fltb _ _); cbn; [reflexivity|].
  destruct (stop _ _) as [[[r|x] s2] w2]; reflexivity.
Qed.

Lemma update_stopped self w :
  is_running self = false -> update self w = (Ok tt, self, w).
Proof. intros H. rewrite update_eq, H. reflexivity. Qed.

Lemma go_on_eq self w : go_on self w = update (set_is_running true self) w.
Proof. reflexivity. Qed.

Lemma start_quiet new self w :
  calls (world_of (start new self w)) = calls w
  /\ time_in_seconds (obj_of (start new self w))
     = (if fneb new unbounded then new else time_in_seconds self)
  /\ start_time (obj_of (start new self w)) = clock w (ticks w)
  /\ is_running (obj_of (start new self w)) = true.
Proof.
  unfold start, bind, modify, time, ret. destruct (fneb new unbounded); cbn; auto.
Qed.

Lemma get_time_quiet n self w :
  calls (world_of (get_time n self w)) = calls w
  /\ time_in_seconds (obj_of (get_time n self w)) = time_in_seconds self
  /\ start_time (obj_of (get_time n self w)) = start_time self.
Proof.
  destruct (is_running self) eqn:Hr.
  - rewrite get_time_running by assumption.
    destruct (round _ n); destruct self; cbn; auto.
  - rewrite get_time_stopped by assumption. cbn; auto.
Qed.

Lemma committed_stopped self w :
  is_running (obj_of (committed self w)) = false
  /\ obj_of (committed self w) = set_is_running false self
  /\ world_of (committed self w) =
     match command self with
     | Some _ => logged (view (set_is_running false self)) w
     | None => w
     end.
Proof.
  unfold committed. destruct self as [d sv [f|] rn t0]; cbn; auto.
Qed.

Lemma committed_atomic self w f :
  command self = Some f ->
  let self' := obj_of (committed self w) in
  is_running self' = false
  /\ _saved_time self' = _saved_time self
  /\ calls (world_of (committed self w)) = calls w ++ [view self']
  /\ res_of (committed self w)
     = match f (view self') with
       | Some e => Raise e
       | None => Ok (_saved_time self')
       end.
Proof.
  intros Hf. unfold committed. destruct self as [d sv cmd rn t0]. cbn in *. subst cmd.
  cbn. destruct (f _); cbn; auto.
Qed.

(** *** Polling until expiry *)

Lemma poll_S n self w :
  poll (S n) self w = poll n (obj_of (update self w)) (world_of (update self w)).
Proof. reflexivity. Qed.

Lemma poll_stopped n : forall self w,
  is_running self = false -> poll n self w = (self, w).
Proof.
  induction n as [|n IH]; intros self w H; [reflexivity|].
  rewrite poll_S, update_stopped by assumption. now apply IH.
Qed.

(** For a bound [d >= 0] and an elapsed time that is a number, the test of
    [update] is the negation of "elapsed >= d". *)
Lemma expiry_test e d :
  fleb zero d = true -> is_nan e = false ->
  fltb e d || fltb d zero = negb (fgeb e d).
Proof.
  intros Hd He.
  assert (Hn : is_nan d = false) by (destruct d; [reflexivity..|discriminate|reflexivity]).
  unfold fgeb. rewrite (fltb_negb_fleb e d He Hn).
  rewrite (fltb_negb_fleb d zero Hn eq_refl), Hd. apply orb_false_r.
Qed.

Lemma update_before self w :
  is_running self = true ->
  fltb (elapsed self w 0) (time_in_seconds self)
  || fltb (time_in_seconds self) zero = true ->
  update self w = (Ok tt, set_saved_time (elapsed self w 0) self, tick w).
Proof.
  intros Hr Hc. rewrite update_eq, Hr. cbn zeta. unfold elapsed in Hc.
  rewrite Nat.add_0_r in Hc. cbn [negb]. rewrite Hc.
  unfold elapsed. now rewrite Nat.add_0_r.
Qed.

Lemma update_expiring self w r :
  is_running self = true ->
  fltb (elapsed self w 0) (time_in_seconds self)
  || fltb (time_in_seconds self) zero = false ->
  round (elapsed self w 1) 2 = Ok r ->
  update self w =
  match committed (set_saved_time r self) (tick (tick w)) with
  | (Ok _, s, w') => (Ok tt, s, w')
  | (Raise x, s, w') => (Raise x, s, w')
  end.
Proof.
  intros Hr Hc Hround. rewrite update_eq, Hr. cbn zeta. unfold elapsed in Hc, Hround.
  rewrite Nat.add_0_r in Hc. cbn [negb]. rewrite Hc.
  rewrite stop_eq, get_time_running by (destruct self; assumption).
  replace (ticks w + 1)%nat with (S (ticks w)) in Hround by lia.
  destruct self as [d sv cmd rn t0]. cbn in *. rewrite Hround.
  reflexivity.
Qed.

(** C1. A running timer of bound [d >= 0] and callback [f] is polled by
    [update()] alone, the clock returning finite doubles.  Let poll number
    [k] (from 0) be the first at which the elapsed time [update] recomputes,
    [now - anchor], reaches or exceeds [d].  Then after each of the first
    [k] polls the timer is still running and the callback has not been
    called; poll [k] stops the timer and calls the callback, exactly once,
    on a timer already stopped; and every later poll leaves the timer and
    the world as poll [k] left them. *)
Theorem C1_expires_once :
  forall (d : float) (f : Callable) (k : nat) (self : t) (w : World),
    fleb zero d = true ->
    time_in_seconds self = d ->
    command self = Some f ->
    is_running self = true ->
    is_double (start_time self) = true ->
    (forall i, is_double (clock w i) = true) ->
    (forall i, (i < k)%nat -> fgeb (elapsed self w i) d = false) ->
    fgeb (elapsed self w k) d = true ->
    (forall j, (j <= k)%nat ->
       is_running (fst (poll j self w)) = true
       /\ calls (snd (poll j self w)) = calls w)
    /\ (is_running (fst (poll (S k) self w)) = false
        /\ exists v, view_is_running v = false
             /\ calls (snd (poll (S k) self w)) = calls w ++ [v])
    /\ (forall j, (S k <= j)%nat -> poll j self w = poll (S k) self w).
Proof.
  intros d f k. induction k as [|k IH]; intros self w Hd Hb Hf Hr Ht0 Hclk Hlt Hat.
  - (* the first update is the expiring one *)
    assert (Hc : fltb (elapsed self w 0) (time_in_seconds self)
                 || fltb (time_in_seconds self) zero = false).
    { rewrite Hb, expiry_test, Hat; [reflexivity | assumption |].
      apply fsub_shape; auto. }
    destruct (round_ok (elapsed self w 1) 2) as [r Hround];
      [apply fsub_shape; auto | lia |].
    pose proof (update_expiring self w r Hr Hc Hround) as Hu.
    pose proof (committed_stopped (set_saved_time r self) (tick (tick w))) as (Hs1 & Hs2 & Hs3).
    assert (Hobj : obj_of (update self w) = obj_of (committed (set_saved_time r self) (tick (tick w)))
                   /\ world_of (update self w) = world_of (committed (set_saved_time r self) (tick (tick w)))).
    { rewrite Hu. destruct (committed _ _) as [[[?|?] ?] ?]; auto. }
    destruct Hobj as [Ho Hw].
    assert (Hcmd : command (set_saved_time r self) = Some f) by (destruct self; assumption).
    rewrite Hcmd in Hs3.
    split; [|split].
    + intros j Hj. assert (j = 0%nat) by lia. subst j. cbn. auto.
    + rewrite poll_S, poll_stopped by (rewrite Ho; exact Hs1). cbn [fst snd].
      split; [rewrite Ho; exact Hs1|].
      exists (view (set_is_running false (set_saved_time r self))).
      split; [reflexivity|]. rewrite Hw, Hs3. reflexivity.
    + intros j Hj. destruct j as [|j]; [lia|].
      rewrite !poll_S, !poll_stopped by (rewrite Ho; exact Hs1). reflexivity.
  - (* the first update finds the bound not reached *)
    assert (Hc : fltb (elapsed self w 0) (time_in_seconds self)
                 || fltb (time_in_seconds self) zero = true).
    { rewrite Hb, expiry_test, (Hlt 0%nat) by (auto; try lia; apply fsub_shape; auto).
      reflexivity. }
    pose proof (update_before self w Hr Hc) as Hu.
    set (s1 := set_saved_time (elapsed self w 0) self) in *.
    assert (Hel : forall i, elapsed s1 (tick w) i = elapsed self w (S i)).
    { intros i. unfold elapsed, s1. destruct self; cbn. f_equal. f_equal. lia. }
    assert (Hb1 : time_in_seconds s1 = d) by (unfold s1; destruct self; assumption).
    assert (Hf1 : command s1 = Some f) by (unfold s1; destruct self; assumption).
    assert (Hr1 : is_running s1 = true) by (unfold s1; destruct self; assumption).
    assert (Ht1 : is_double (start_time s1) = true) by (unfold s1; destruct self; assumption).
    assert (Hlt1 : forall i, (i < k)%nat -> fgeb (elapsed s1 (tick w) i) d = false).
    { intros i Hi. rewrite Hel. apply Hlt. lia. }
    assert (Hat1 : fgeb (elapsed s1 (tick w) k) d = true) by (rewrite Hel; exact Hat).
    destruct (IH s1 (tick w) Hd Hb1 Hf1 Hr1 Ht1 Hclk Hlt1 Hat1) as (H1 & H2 & H3).
    assert (Hp : forall j, poll (S j) self w = poll j s1 (tick w)).
    { intros j. rewrite poll_S, Hu. reflexivity. }
    split; [|split].
    + intros j Hj. destruct j as [|j]; [cbn; auto|].
      rewrite Hp. apply H1. lia.
    + rewrite Hp. exact H2.
    + intros j Hj. destruct j as [|j]; [lia|].
      rewrite !Hp. apply H3. lia.
Qed.

Lemma C1_expires_once_witness :
  let started := start unbounded (__init__ one (Some Sample.quiet)) Sample.w0 in
  let self := obj_of started in
  let w := world_of started in
  (forall j, (j <= 1)%nat ->
     is_running (fst (poll j self w)) = true
     /\ calls (snd (poll j self w)) = calls w)
  /\ (is_running (fst (poll 2 self w)) = false
      /\ exists v, view_is_running v = false
           /\ calls (snd (poll 2 self w)) = calls w ++ [v])
  /\ (forall j, (2 <= j)%nat -> poll j self w = poll 2 self w).
Proof.
  apply (C1_expires_once one Sample.quiet 1).
  - reflexivity.
  - reflexivity.
  - reflexivity.
  - reflexivity.
  - reflexivity.
  - exact sample_clock_double.
  - intros i Hi. assert (i = 0%nat) as -> by lia. reflexivity.
  - reflexivity.
Defined.

(** *** Unbounded timers *)

Lemma update_unbounded self w :
  fltb (time_in_seconds self) zero = true ->
  calls (world_of (update self w)) = calls w
  /\ time_in_seconds (obj_of (update self w)) = time_in_seconds self.
Proof.
  intros H. rewrite update_eq.
  destruct (is_running self); cbn [negb]; cbn iota; [|cbn; auto].
  cbn zeta. rewrite H, orb_true_r. destruct self; cbn; auto.
Qed.

(** An unbounded timer stays unbounded, and its callback uncalled, through
    any call but [stop]. *)
Lemma run_op_unbounded o self w :
  fltb (time_in_seconds self) zero = true ->
  keeps_unbounded o = true -> is_stop o = false ->
  fltb (time_in_seconds (fst (run_op o self w))) zero = true
  /\ calls (snd (run_op o self w)) = calls w.
Proof.
  intros Hd Hk Hs. destruct o as [new| | | |n|]; cbn [run_op forget fst snd].
  - destruct (start_quiet new self w) as (Hc & Ht & _). rewrite Hc, Ht.
    cbn in Hk. destruct (fneb new unbounded); auto.
  - destruct (update_unbounded self w Hd) as [Hc Ht]. rewrite Hc, Ht. auto.
  - cbn. destruct self; auto.
  - rewrite go_on_eq.
    destruct (update_unbounded (set_is_running true self) w) as [Hc Ht];
      [destruct self; assumption|].
    rewrite Hc, Ht. destruct self; auto.
  - destruct (get_time_quiet n self w) as (Hc & Ht & _). rewrite Hc, Ht. auto.
  - discriminate.
Qed.

(** C2, as stated, fails: an explicit [stop()] calls the callback of an
    unbounded timer. *)
Lemma C2_stop_fires_counterexample :
  let self := __init__ unbounded (Some Sample.quiet) in
  fltb (time_in_seconds self) zero = true
  /\ forallb keeps_unbounded [Stop] = true
  /\ calls Sample.w0 = []
  /\ List.length (calls (snd (run_ops [Stop] self Sample.w0))) = 1%nat.
Proof.
  split; [reflexivity | split; [reflexivity | split; reflexivity]].
Qed.

(** C2, amended. A timer whose bound is negative, driven by any sequence
    of [start] (with a negative argument, the default [-1] included),
    [update], [pause], [go_on] and [get_time] calls that holds no explicit
    [stop], never calls its callback, whatever the clock reads. *)
Theorem C2_unbounded_never_fires_without_stop :
  forall (os : list op) (self : t) (w : World),
    fltb (time_in_seconds self) zero = true ->
    forallb keeps_unbounded os = true ->
    existsb is_stop os = false ->
    calls (snd (run_ops os self w)) = calls w.
Proof.
  induction os as [|o os IH]; intros self w Hd Hk Hs; [reflexivity|].
  cbn in Hk, Hs. apply andb_prop in Hk as [Hk1 Hk2].
  apply orb_false_elim in Hs as [Hs1 Hs2].
  destruct (run_op_unbounded o self w Hd Hk1 Hs1) as [Hd' Hc].
  cbn [run_ops]. destruct (run_op o self w) as [s1 w1]. cbn [fst snd] in *.
  rewrite IH by assumption. exact Hc.
Qed.

Lemma C2_unbounded_never_fires_without_stop_witness :
  calls (snd (run_ops [Start unbounded; Update; Pause; GoOn; GetTime 2; Update]
                      (__init__ unbounded (Some Sample.quiet)) Sample.w0))
  = calls Sample.w0.
Proof.
  apply C2_unbounded_never_fires_without_stop; reflexivity.
Defined.

(** *** The stop transition *)

(** C3. [stop], called directly or by [update] when it finds the bound
    [d >= 0] reached, calls the callback on the timer as it is left in the
    end: the running flag already false, the saved time already the final
    one.  That call is the one entry the log gains.  When the callback
    raises, [stop] (or [update]) raises the same exception and the timer
    stays stopped with that saved time; when it returns, [stop] returns the
    saved time.  The clock returns finite doubles. *)
Theorem C3_stop_commits_before_callback :
  forall (self : t) (w : World) (f : Callable),
    command self = Some f ->
    is_double (start_time self) = true ->
    (forall i, is_double (clock w i) = true) ->
    (let self' := obj_of (stop self w) in
     is_running self' = false
     /\ calls (world_of (stop self w)) = calls w ++ [view self']
     /\ res_of (stop self w)
        = match f (view self') with
          | Some e => Raise e
          | None => Ok (_saved_time self')
          end)
    /\ (is_running self = true ->
        fleb zero (time_in_seconds self) = true ->
        fgeb (elapsed self w 0) (time_in_seconds self) = true ->
        let self' := obj_of (update self w) in
        is_running self' = false
        /\ calls (world_of (update self w)) = calls w ++ [view self']
        /\ res_of (update self w)
           = match f (view self') with
             | Some e => Raise e
             | None => Ok tt
             end).
Proof.
  intros self w f Hf Ht0 Hclk. split.
  - destruct (is_running self) eqn:Hr.
    + destruct (round_ok (elapsed self w 0) 2) as [r Hround];
        [apply fsub_shape; auto | lia |].
      rewrite (stop_running self w r Hr Hround).
      destruct (committed_atomic (set_saved_time r self) (tick w) f) as (H1 & _ & H3 & H4);
        [destruct self; assumption|].
      auto.
    + rewrite (stop_stopped self w Hr).
      destruct (committed_atomic self w f Hf) as (H1 & _ & H3 & H4). auto.
  - intros Hr Hd Hge.
    assert (Hc : fltb (elapsed self w 0) (time_in_seconds self)
                 || fltb (time_in_seconds self) zero = false).
    { rewrite expiry_test, Hge; [reflexivity | assumption |].
      apply fsub_shape; auto. }
    destruct (round_ok (elapsed self w 1) 2) as [r Hround];
      [apply fsub_shape; auto | lia |].
    rewrite (update_expiring self w r Hr Hc Hround).
    destruct (committed_atomic (set_saved_time r self) (tick (tick w)) f) as (H1 & _ & H3 & H4);
      [destruct self; assumption|].
    cbv zeta in *.
    destruct (committed (set_saved_time r self) (tick (tick w))) as [[[x|x] s] w'];
      cbn [obj_of world_of res_of fst snd] in *;
      destruct (f (view s)); repeat split; auto; congruence.
Qed.

Lemma C3_stop_commits_before_callback_witness :
  let stopped := stop (obj_of (start unbounded (__init__ zero (Some Sample.failing)) Sample.w0))
                      (world_of (start unbounded (__init__ zero (Some Sample.failing)) Sample.w0)) in
  let polled := update (obj_of (start unbounded (__init__ zero (Some Sample.failing)) Sample.w0))
                       (world_of (start unbounded (__init__ zero (Some Sample.failing)) Sample.w0)) in
  (is_running (obj_of stopped) = false
   /\ calls (world_of stopped) = [view (obj_of stopped)]
   /\ res_of stopped = Raise (CallbackError 0))
  /\ (is_running (obj_of polled) = false
      /\ calls (world_of polled) = [view (obj_of polled)]
      /\ res_of polled = Raise (CallbackError 0)).
Proof.
  destruct (C3_stop_commits_before_callback
              (obj_of (start unbounded (__init__ zero (Some Sample.failing)) Sample.w0))
              (world_of (start unbounded (__init__ zero (Some Sample.failing)) Sample.w0))
              Sample.failing eq_refl eq_refl sample_clock_double) as [H1 H2].
  split.
  - exact H1.
  - exact (H2 eq_refl eq_refl eq_refl).
Defined.

(** *** Pause and resume *)

Lemma committed_anchor self w :
  start_time (obj_of (committed self w)) = start_time self.
Proof. unfold committed. destruct self as [d sv [f|] rn t0]; reflexivity. Qed.

Lemma stop_anchor self w : start_time (obj_of (stop self w)) = start_time self.
Proof.
  rewrite stop_eq.
  pose proof (get_time_quiet 2 self w) as (_ & _ & H).
  destruct (get_time 2 self w) as [[[r|e] s0] w0]; cbn [obj_of fst snd] in *.
  - rewrite committed_anchor. exact H.
  - exact H.
Qed.

Lemma update_anchor self w : start_time (obj_of (update self w)) = start_time self.
Proof.
  rewrite update_eq. destruct (is_running self); cbn [negb]; cbn iota; [|reflexivity].
  cbn zeta. destruct (_ || _); [destruct self; reflexivity|].
  pose proof (stop_anchor (set_saved_time (fsub (clock w (ticks w)) (start_time self)) self) (tick w)) as H.
  destruct (stop _ _) as [[[r|e] s0] w0]; cbn [obj_of fst snd] in *;
    rewrite H; destruct self; reflexivity.
Qed.

(** Only [start] moves the anchor. *)
Lemma run_op_anchor o self w :
  is_start o = false -> start_time (fst (run_op o self w)) = start_time self.
Proof.
  intros Hs. destruct o as [new| | | |n|]; cbn [run_op forget fst snd].
  - discriminate.
  - apply update_anchor.
  - destruct self; reflexivity.
  - rewrite go_on_eq, update_anchor. destruct self; reflexivity.
  - apply get_time_quiet.
  - apply stop_anchor.
Qed.

Lemma run_ops_anchor os : forall self w,
  existsb is_start os = false ->
  start_time (fst (run_ops os self w)) = start_time self.
Proof.
  induction os as [|o os IH]; intros self w Hs; [reflexivity|].
  cbn in Hs. apply orb_false_elim in Hs as [Hs1 Hs2].
  cbn [run_ops]. pose proof (run_op_anchor o self w Hs1) as H.
  destruct (run_op o self w) as [s1 w1]. cbn [fst] in H.
  rewrite IH by assumption. exact H.
Qed.

Lemma run_ops_app os1 : forall os2 self w,
  run_ops (os1 ++ os2) self w
  = run_ops os2 (fst (run_ops os1 self w)) (snd (run_ops os1 self w)).
Proof.
  induction os1 as [|o os1 IH]; intros os2 self w; [reflexivity|].
  cbn [app run_ops]. destruct (run_op o self w) as [s1 w1]. apply IH.
Qed.

(** C4. A timer is started when the clock reads [t0], driven by any calls
    other than [start], then paused.  It is then not running and its anchor
    is still [t0]; [go_on] leaves the anchor at [t0].  What [go_on] leaves
    is measured from [t0] in every case, the pause included.  If the bound
    is not reached (or is negative), the timer runs on with the saved time
    [now - t0], and a reading taken while it runs on is
    [round(now' - t0, n)].  If the bound is reached, [go_on] stops the timer
    in the same call: the saved time is [round(next - t0, 2)] for the
    clock's next reading, the callback (if any) is called once on that
    stopped timer, and every later reading returns that saved time.  The
    rounding succeeds when the readings are finite doubles. *)
Theorem C4_resume_counts_paused_time :
  forall (new : float) (self0 : t) (w0 : World) (os : list op),
    existsb is_start os = false ->
    let t0 := clock w0 (ticks w0) in
    let paused := run_ops (Start new :: os ++ [Pause]) self0 w0 in
    let self := fst paused in
    let w := snd paused in
    let now := clock w (ticks w) in
    let next := clock w (ticks w + 1) in
    start_time self = t0
    /\ is_running self = false
    /\ start_time (obj_of (go_on self w)) = t0
    /\ (fltb (fsub now t0) (time_in_seconds self)
        || fltb (time_in_seconds self) zero = true ->
        go_on self w
        = (Ok tt, set_saved_time (fsub now t0) (set_is_running true self), tick w))
    /\ (forall n w' r,
          is_running (obj_of (go_on self w)) = true ->
          round (fsub (clock w' (ticks w')) t0) n = Ok r ->
          res_of (get_time n (obj_of (go_on self w)) w') = Ok r)
    /\ (fltb (fsub now t0) (time_in_seconds self)
        || fltb (time_in_seconds self) zero = false ->
        forall r, round (fsub next t0) 2 = Ok r ->
          let stopped := mk (time_in_seconds self) r (command self) false t0 in
          obj_of (go_on self w) = stopped
          /\ world_of (go_on self w)
             = match command self with
               | Some _ => logged (view stopped) (tick (tick w))
               | None => tick (tick w)
               end
          /\ forall n w', get_time n stopped w' = (Ok r, stopped, w'))
    /\ (is_double next = true -> is_double t0 = true ->
        exists r, round (fsub next t0) 2 = Ok r).
Proof.
  intros new self0 w0 os Hs t0 paused self w now next.
  assert (Ht : start_time self = t0).
  { unfold self, paused. cbn [run_ops run_op forget].
    rewrite run_ops_app. cbn [run_ops run_op forget fst snd Timer.pause].
    unfold pause, modify. cbn [obj_of world_of fst snd].
    match goal with |- start_time (set_is_running false ?s) = _ =>
      transitivity (start_time s); [destruct s; reflexivity|] end.
    rewrite run_ops_anchor by assumption.
    apply start_quiet. }
  assert (Hr : is_running self = false).
  { unfold self, paused. cbn [run_ops run_op forget].
    rewrite run_ops_app. cbn [run_ops run_op forget fst snd].
    unfold pause, modify. cbn [obj_of world_of fst snd].
    match goal with |- is_running (set_is_running false ?s) = _ =>
      destruct s; reflexivity end. }
  assert (Hg : start_time (obj_of (go_on self w)) = t0).
  { rewrite go_on_eq, update_anchor. rewrite <- Ht. destruct self; reflexivity. }
  assert (E1 : is_running (set_is_running true self) = true) by (destruct self; reflexivity).
  assert (E2 : start_time (set_is_running true self) = t0) by (rewrite <- Ht; destruct self; reflexivity).
  assert (E3 : time_in_seconds (set_is_running true self) = time_in_seconds self) by (destruct self; reflexivity).
  split; [exact Ht | split; [exact Hr | split; [exact Hg | split; [|split; [|split]]]]].
  - intros Hc. rewrite go_on_eq, update_eq.
    rewrite E1. cbn [negb]. cbn iota. cbn zeta. rewrite E2, E3. fold now. rewrite Hc.
    reflexivity.
  - intros n w' r Hrun Hround.
    rewrite get_time_running by assumption. rewrite Hg, Hround. reflexivity.
  - intros Hc r Hround stopped.
    assert (Hu : go_on self w
                 = match committed (set_saved_time r (set_is_running true self))
                                   (tick (tick w)) with
                   | (Ok _, s, w') => (Ok tt, s, w')
                   | (Raise x, s, w') => (Raise x, s, w')
                   end).
    { rewrite go_on_eq. apply update_expiring; [exact E1 | |].
      - unfold elapsed. rewrite Nat.add_0_r, E2, E3. exact Hc.
      - unfold elapsed. rewrite E2. exact Hround. }
    pose proof (committed_stopped (set_saved_time r (set_is_running true self))
                                  (tick (tick w))) as (_ & Ho & Hw).
    assert (Es : set_is_running false (set_saved_time r (set_is_running true self)) = stopped)
      by (unfold stopped; rewrite <- Ht; destruct self; reflexivity).
    assert (Ec : command (set_saved_time r (set_is_running true self)) = command self)
      by (destruct self; reflexivity).
    rewrite Es in Ho, Hw. rewrite Ec in Hw.
    split; [|split].
    + rewrite Hu. destruct (committed _ _) as [[[x|x] s2] w2]; exact Ho.
    + rewrite Hu. destruct (committed _ _) as [[[x|x] s2] w2]; exact Hw.
    + intros n w'. apply get_time_stopped. reflexivity.
  - intros Hn H0. apply round_ok; [|lia]. apply fsub_shape; assumption.
Qed.

(** An unbounded timer resumed at 1.5 after a pause runs on with 1.5 saved
    and reads 2.5 at the next reading; a timer of bound 1.0, started at 0.0,
    updated at 0.5, paused and resumed at 1.5, is stopped by [go_on] with
    2.5 saved and its callback called once. *)
Lemma C4_resume_counts_paused_time_witness :
  let paused := run_ops [Start unbounded; Update; Pause]
                        (__init__ unbounded None) Sample.w0 in
  let late := run_ops [Start unbounded; Update; Pause]
                      (__init__ one (Some Sample.quiet)) Sample.w0 in
  let stopped := mk one Sample.f2_5 (Some Sample.quiet) false zero in
  (start_time (fst paused) = zero
   /\ is_running (fst paused) = false
   /\ start_time (obj_of (go_on (fst paused) (snd paused))) = zero
   /\ go_on (fst paused) (snd paused)
      = (Ok tt,
         set_saved_time Sample.f1_5 (set_is_running true (fst paused)),
         tick (snd paused))
   /\ res_of (get_time 2 (obj_of (go_on (fst paused) (snd paused)))
                       (world_of (go_on (fst paused) (snd paused))))
      = Ok Sample.f2_5)
  /\ (obj_of (go_on (fst late) (snd late)) = stopped
      /\ calls (world_of (go_on (fst late) (snd late))) = [view stopped]
      /\ get_time 2 stopped (world_of (go_on (fst late) (snd late)))
         = (Ok Sample.f2_5, stopped, world_of (go_on (fst late) (snd late)))).
Proof.
  destruct (C4_resume_counts_paused_time unbounded (__init__ unbounded None)
              Sample.w0 [Update] eq_refl) as (H1 & H2 & H3 & H4 & H5 & _).
  destruct (C4_resume_counts_paused_time unbounded (__init__ one (Some Sample.quiet))
              Sample.w0 [Update] eq_refl) as (_ & _ & _ & _ & _ & H6 & _).
  destruct (H6 eq_refl Sample.f2_5 eq_refl) as (K1 & K2 & K3).
  split.
  - exact (conj H1 (conj H2 (conj H3 (conj (H4 eq_refl)
             (H5 2 (tick (tick (tick Sample.w0))) Sample.f2_5 eq_refl eq_refl))))).
  - exact (conj K1 (conj (f_equal calls K2) (K3 2 _))).
Defined.

(** *** Reading the time *)

(** C9. While the timer runs, [get_time(n)] reads the clock, stores
    [round(now - anchor, n)] as the saved time and returns it (the rounding
    cannot fail for [n >= 0] and a clock of finite doubles).  While it does
    not run, [get_time] returns the saved time as it is, reads no clock and
    changes nothing, so a second call returns the same. *)
Theorem C9_get_time_rounds_only_while_running :
  forall (n : Z) (self : Timer.t) (w : World),
    let elapsed := fsub (clock w (ticks w)) (Timer.start_time self) in
    (Timer.is_running self = true ->
     forall r, round elapsed n = Ok r ->
       Timer.get_time n self w = (Ok r, Timer.set_saved_time r self, tick w))
    /\ (Timer.is_running self = true -> 0 <= n ->
        is_double (clock w (ticks w)) = true ->
        is_double (Timer.start_time self) = true ->
        exists r, round elapsed n = Ok r)
    /\ (Timer.is_running self = false ->
        Timer.get_time n self w = (Ok (Timer._saved_time self), self, w)
        /\ forall n',
             Timer.get_time n' (obj_of (Timer.get_time n self w))
                              (world_of (Timer.get_time n self w))
             = (Ok (Timer._saved_time self), self, w)).
Proof.
  intros n self w elapsed. repeat split.
  - intros Hr r Hround. rewrite get_time_running by assumption.
    fold elapsed. now rewrite Hround.
  - intros _ Hn Hnow Ht0. apply round_ok; [|assumption].
    apply fsub_shape; assumption.
  - now apply get_time_stopped.
  - intros n'. rewrite (get_time_stopped n self w H). cbn [obj_of world_of fst snd].
    now apply get_time_stopped.
Qed.

Lemma C9_get_time_rounds_only_while_running_witness :
  let started := start unbounded (__init__ unbounded None) Sample.w0 in
  get_time 2 (obj_of started) (world_of started)
  = (Ok Sample.f0_5, set_saved_time Sample.f0_5 (obj_of started), tick (world_of started))
  /\ (exists r, round (fsub Sample.f0_5 zero) 2 = Ok r)
  /\ get_time 2 (__init__ unbounded None) Sample.w0
     = (Ok zero, __init__ unbounded None, Sample.w0).
Proof.
  destruct (C9_get_time_rounds_only_while_running 2
              (obj_of (start unbounded (__init__ unbounded None) Sample.w0))
              (world_of (start unbounded (__init__ unbounded None) Sample.w0)))
    as (H1 & H2 & _).
  destruct (C9_get_time_rounds_only_while_running 2 (__init__ unbounded None) Sample.w0)
    as (_ & _ & H3).
  exact (conj (H1 eq_refl Sample.f0_5 eq_refl)
              (conj (H2 eq_refl ltac:(lia) eq_refl eq_refl) (proj1 (H3 eq_refl)))).
Defined.

End TimerFacts.

(** ** class CountUpTimer *)

Module CountUpFacts.
Import PyFloat PyStr FloatFacts.
Local Open Scope string_scope.
Local Open Scope Z_scope.

(** C10. The first [start()] after construction reads no clock: the anchor
    stays [s + t0], the offset [s] given to the constructor added to the
    clock reading [t0] it took, and the saved time stays as it was.  A
    reading while running is therefore [now - (s + t0)], which for the
    default offset [0.0] is exactly [(now - t0) - s].  So does any [start()]
    that finds [is_pause] false; one that finds it true moves the anchor to
    the clock's reading and resets the saved time to [0.0]. *)
Theorem C10_first_start_keeps_construction_anchor :
  forall (s : float) (w0 : World),
    let t0 := clock w0 (ticks w0) in
    let built := CountUpTimer.__init__ s w0 in
    let first := CountUpTimer.start (fst built) (snd built) in
    (first = (Ok tt, CountUpTimer.mk true zero (fadd s t0) true, snd built)
     /\ forall w,
          res_of (CountUpTimer.get_time "seconds" (obj_of first) w)
          = Ok (VFloat (fsub (clock w (ticks w)) (fadd s t0))))
    /\ (s = zero -> t0 <> S754_zero true ->
        fadd s t0 = t0
        /\ forall now, fsub now (fadd s t0) = fsub (fsub now t0) s)
    /\ (forall self w,
          CountUpTimer.is_pause self = false ->
          CountUpTimer.start self w
          = (Ok tt,
             CountUpTimer.mk true (CountUpTimer.saved_time self)
                             (CountUpTimer.start_time self) true,
             w))
    /\ (forall self w,
          CountUpTimer.is_pause self = true ->
          CountUpTimer.start self w
          = (Ok tt, CountUpTimer.mk true zero (clock w (ticks w)) true, tick w)).
Proof.
  intros s w0 t0 built first. split; [|split; [|split]].
  - split; [reflexivity|]. intros w. reflexivity.
  - intros -> Ht0.
    assert (E : fadd zero t0 = t0).
    { destruct t0 as [[|]| | |]; try reflexivity. now contradiction Ht0. }
    split; [exact E|]. intros now. rewrite E.
    destruct (fsub now t0) as [[|]| | |]; reflexivity.
  - intros self w H. unfold CountUpTimer.start, bind, get, modify, ret. cbn.
    rewrite H. reflexivity.
  - intros self w H. unfold CountUpTimer.start, bind, get, modify, ret, time. cbn.
    rewrite H. reflexivity.
Qed.

Lemma C10_first_start_keeps_construction_anchor_witness :
  let built := CountUpTimer.__init__ Sample.f0_5 Sample.w0 in
  let first := CountUpTimer.start (fst built) (snd built) in
  first = (Ok tt, CountUpTimer.mk true zero (fadd Sample.f0_5 zero) true, tick Sample.w0)
  /\ res_of (CountUpTimer.get_time "seconds" (obj_of first) (world_of first))
     = Ok (VFloat (fsub Sample.f0_5 (fadd Sample.f0_5 zero)))
  /\ CountUpTimer.start (obj_of first) (world_of first)
     = (Ok tt, CountUpTimer.mk true zero Sample.f0_5 true, tick (tick Sample.w0))
  /\ (let again := CountUpTimer.__init__ zero (tick Sample.w0) in
      CountUpTimer.start_time (fst again) = Sample.f0_5).
Proof.
  destruct (C10_first_start_keeps_construction_anchor Sample.f0_5 Sample.w0)
    as ((H1 & H2) & _ & _ & H4).
  destruct (C10_first_start_keeps_construction_anchor zero (tick Sample.w0))
    as (_ & H3 & _).
  exact (conj H1
           (conj (H2 (tick Sample.w0))
                 (conj (H4 (CountUpTimer.mk true zero (fadd Sample.f0_5 zero) true)
                           (tick Sample.w0) eq_refl)
                       (proj1 (H3 eq_refl ltac:(discriminate)))))).
Defined.

(** C8, as stated, fails: 3661.2 is not formatted as "01:01:01.2". *)
Lemma C8_format_counterexample :
  float_of_str "3661.2" = Ok Sample.f3661_2
  /\ res_of (CountUpTimer.get_time "HHMMSS"
               (CountUpTimer.mk false Sample.f3661_2 zero true) Sample.w0)
     <> Ok (VStr "01:01:01.2").
Proof. split; [vm_compute; reflexivity | vm_compute; discriminate]. Qed.

(** C8, amended. The float nearest to 3661.2 lies a little below it; the
    float remainder of its division by 60 is 1.199999999999818 and prints
    as such; with a zero before it and cut to six characters it reads
    "01.199".  A stopped count-up timer whose saved time is that float
    returns "01:01:01.199" in mode "HHMMSS", and changes nothing. *)
Theorem C8_format_3661_2 :
  forall (anchor : float) (paused : bool) (w : World),
    float_of_str "3661.2" = Ok Sample.f3661_2
    /\ (exists sec,
          divmod Sample.f3661_2 (of_Z 60) = Ok (of_Z 61, sec)
          /\ repr sec = "1.199999999999818")
    /\ CountUpTimer.get_time "HHMMSS"
         (CountUpTimer.mk false Sample.f3661_2 anchor paused) w
       = (Ok (VStr "01:01:01.199"),
          CountUpTimer.mk false Sample.f3661_2 anchor paused, w).
Proof.
  intros anchor paused w. split; [vm_compute; reflexivity|]. split.
  - exists (S754_finite false 5404319552843776 (-52)).
    split; vm_compute; reflexivity.
  - vm_compute. reflexivity.
Qed.

End CountUpFacts.

(** ** class CountDownTimer *)

Module CountDownFacts.
Import PyFloat PyStr FloatFacts CountDownTimer Wording.
Local Open Scope string_scope.
Local Open Scope Z_scope.

(** C5. [CountDownTimer.get_time(mode)] changes neither the count-down
    timer nor its inner timer, reads no clock, and returns
    [seconds - timer._saved_time]: as it is unless [mode] is "HHMMSS", and
    otherwise formatted as [CountUpTimer.get_time] formats a stopped
    count-up timer's saved time (raising what that formatting raises). *)
Theorem C5_countdown_get_time_reads_snapshot :
  forall (mode : string) (self : CountDownTimer.t) (w : World)
         (anchor : float) (paused : bool),
    let remaining :=
      fsub (CountDownTimer.seconds self)
           (Timer._saved_time (CountDownTimer.timer self)) in
    obj_of (CountDownTimer.get_time mode self w) = self
    /\ world_of (CountDownTimer.get_time mode self w) = w
    /\ res_of (CountDownTimer.get_time mode self w)
       = (if String.eqb mode "HHMMSS"
          then res_of (CountUpTimer.get_time "HHMMSS"
                         (CountUpTimer.mk false remaining anchor paused) w)
          else Ok (VFloat remaining)).
Proof.
  intros mode self w anchor paused remaining.
  unfold CountDownTimer.get_time, CountUpTimer.get_time, CountUpTimer._get_time.
  unfold bind, get, lift, ret. fold remaining.
  cbn [String.eqb Ascii.eqb Bool.eqb negb CountUpTimer.is_running CountUpTimer.saved_time].
  cbv beta iota. fold remaining.
  destruct (String.eqb mode "HHMMSS"); cbn [negb]; [|auto].
  destruct (divmod remaining (of_Z 60)) as [[q r]|e]; [|auto].
  destruct (to_int q) as [m|e]; auto.
Qed.

(** [__init__] on the fields of its argument. *)
Lemma init_eq s cmd :
  __init__ s cmd =
  match split ":" s with
  | h :: rest1 =>
      rbind (int_of_str h) (fun hours =>
      match rest1 with
      | m :: rest2 =>
          rbind (int_of_str m) (fun mins =>
          match rest2 with
          | x :: _ =>
              rbind (float_of_str x) (fun sec =>
              rbind (of_int (hours * 3600 + mins * 60)) (fun whole =>
              Ok (mk (fadd whole sec) (Timer.__init__ (fadd whole sec) cmd))))
          | [] => Raise IndexError
          end)
      | [] => Raise IndexError
      end)
  | [] => Raise IndexError
  end.
Proof.
  unfold __init__, item.
  destruct (split ":" s) as [|h [|m [|x rest]]]; cbn [nth_error rbind]; try reflexivity;
    destruct (int_of_str h); cbn [rbind]; try reflexivity;
    destruct (int_of_str m); cbn [rbind]; try reflexivity.
  destruct (float_of_str x); cbn [rbind]; [|reflexivity].
  destruct (of_int _); cbn [rbind]; [|reflexivity].
  destruct cmd; reflexivity.
Qed.

Lemma int_of_str_raises s e : int_of_str s = Raise e -> e = ValueError.
Proof.
  unfold int_of_str. destruct (negb _); [congruence|].
  destruct (sign_of _) as [neg r]. destruct (span_digits r) as [ds rest].
  destruct (_ || _); [congruence|].
  destruct (_ <? _); congruence.
Qed.

Lemma float_of_str_raises s e : float_of_str s = Raise e -> e = ValueError.
Proof.
  unfold float_of_str. destruct (negb _); [congruence|].
  destruct (sign_of _) as [neg r].
  destruct (_ || _); [congruence|].
  destruct (String.eqb _ _); [congruence|].
  destruct (decimal_of r) as [[mant ex]|]; congruence.
Qed.

Lemma of_int_raises z e : of_int z = Raise e -> e = OverflowError.
Proof. unfold of_int. destruct (is_inf _); congruence. Qed.

(** A string always splits into at least one field. *)
Lemma split_nonempty sep s : split sep s <> [].
Proof.
  destruct s as [|c s']; cbn; [discriminate|].
  destruct (Ascii.eqb c sep); [discriminate|].
  destruct (split sep s'); discriminate.
Qed.

(** Taking apart what is known of the fields and of their conversions. *)
Ltac fields_inv :=
  repeat match goal with
  | H : exists _, _ |- _ => destruct H
  | H : _ /\ _ |- _ => destruct H
  | H : _ \/ _ |- _ => destruct H
  | H : [] = _ :: _ |- _ => discriminate H
  | H : _ :: _ = [] |- _ => discriminate H
  | H : Ok _ = Raise _ |- _ => discriminate H
  | H : Raise _ = Ok _ |- _ => discriminate H
  | H : false = true |- _ => discriminate H
  | H : _ :: _ = _ :: _ |- _ => injection H; clear H; intros
  | H : Ok _ = Ok _ |- _ => injection H; clear H; intros
  | H : @Raise _ _ = @Raise _ _ |- _ => injection H; clear H; intros
  end; subst.

Ltac fields_ex := solve [repeat eexists; eauto; congruence].

Ltac fields_fin :=
  first [ congruence
        | fields_ex
        | left; fields_ex
        | right; left; fields_ex
        | right; right; fields_ex
        | right; fields_ex ].

(** One conjunct, once the fields and their conversions are known. *)
Ltac fields_solve :=
  cbn [rbind is_ok andb] in *;
  first [ split; intros; fields_inv; fields_fin
        | intros; fields_inv; fields_fin ].

(** C6, as stated, fails: a fourth field is not a parse failure. *)
Lemma C6_extra_field_counterexample :
  matches_hms "1:2:3:4" = false
  /\ is_ok (CountDownTimer.__init__ "1:2:3:4" None) = true.
Proof. split; vm_compute; reflexivity. Qed.

(** C6, amended. Construction succeeds exactly when the string has at least
    three fields between colons, the first two accepted by [int], the third
    by [float], and [hours * 3600 + minutes * 60] small enough for a float;
    fields after the third are ignored.  Otherwise an exception reaches the
    caller and no timer results, and which one is settled by the fields
    read in order: [ValueError] exactly when the first, second or third
    field is refused by its conversion ([int], [int], [float]) and the
    fields before it are accepted; [IndexError] exactly when there are
    fewer than three fields and those present are accepted by [int];
    [OverflowError] exactly when the three are accepted and the whole
    seconds are too large for a float; and no other exception.  A string of
    exactly three accepted fields succeeds or raises that
    [OverflowError]. *)
Theorem C6_construction_succeeds_iff :
  forall (s : string) (cmd : option Callable),
    (forall h m x rest hours mins sec whole,
        split ":" s = h :: m :: x :: rest ->
        int_of_str h = Ok hours -> int_of_str m = Ok mins ->
        float_of_str x = Ok sec ->
        of_int (hours * 3600 + mins * 60) = Ok whole ->
        CountDownTimer.__init__ s cmd
        = Ok (CountDownTimer.mk (fadd whole sec)
                                (Timer.__init__ (fadd whole sec) cmd)))
    /\ (is_ok (CountDownTimer.__init__ s cmd) = true ->
        exists h m x rest hours mins sec whole,
          split ":" s = h :: m :: x :: rest
          /\ int_of_str h = Ok hours /\ int_of_str m = Ok mins
          /\ float_of_str x = Ok sec
          /\ of_int (hours * 3600 + mins * 60) = Ok whole)
    /\ (CountDownTimer.__init__ s cmd = Raise ValueError <->
        (exists h rest,
           split ":" s = h :: rest /\ int_of_str h = Raise ValueError)
        \/ (exists h m rest hours,
              split ":" s = h :: m :: rest
              /\ int_of_str h = Ok hours /\ int_of_str m = Raise ValueError)
        \/ (exists h m x rest hours mins,
              split ":" s = h :: m :: x :: rest
              /\ int_of_str h = Ok hours /\ int_of_str m = Ok mins
              /\ float_of_str x = Raise ValueError))
    /\ (CountDownTimer.__init__ s cmd = Raise IndexError <->
        (exists h hours, split ":" s = [h] /\ int_of_str h = Ok hours)
        \/ (exists h m hours mins,
              split ":" s = [h; m]
              /\ int_of_str h = Ok hours /\ int_of_str m = Ok mins))
    /\ (CountDownTimer.__init__ s cmd = Raise OverflowError <->
        exists h m x rest hours mins sec,
          split ":" s = h :: m :: x :: rest
          /\ int_of_str h = Ok hours /\ int_of_str m = Ok mins
          /\ float_of_str x = Ok sec
          /\ of_int (hours * 3600 + mins * 60) = Raise OverflowError)
    /\ (forall e, CountDownTimer.__init__ s cmd = Raise e ->
        e = ValueError \/ e = IndexError \/ e = OverflowError)
    /\ (matches_hms s = true ->
        is_ok (CountDownTimer.__init__ s cmd) = true
        \/ CountDownTimer.__init__ s cmd = Raise OverflowError).
Proof.
  intros s cmd. rewrite init_eq. unfold matches_hms.
  pose proof (split_nonempty ":" s) as Hne.
  destruct (split ":" s) as [|h [|m [|x rest]]]; [contradiction| | |]; clear Hne.
  - destruct (int_of_str h) as [hours|e] eqn:Hh;
      [|pose proof (int_of_str_raises _ _ Hh); subst e];
      (split; [|split; [|split; [|split; [|split; [|split]]]]]); fields_solve.
  - destruct (int_of_str h) as [hours|e] eqn:Hh;
      [|pose proof (int_of_str_raises _ _ Hh); subst e];
      [destruct (int_of_str m) as [mins|e] eqn:Hm;
         [|pose proof (int_of_str_raises _ _ Hm); subst e]|];
      (split; [|split; [|split; [|split; [|split; [|split]]]]]); fields_solve.
  - destruct (int_of_str h) as [hours|e] eqn:Hh; cbn [rbind];
      [destruct (int_of_str m) as [mins|e] eqn:Hm; cbn [rbind];
         [destruct (float_of_str x) as [sec|e] eqn:Hx; cbn [rbind];
            [destruct (of_int (hours * 3600 + mins * 60)) as [whole|e] eqn:Hw;
               [|pose proof (of_int_raises _ _ Hw); subst e]
            |pose proof (float_of_str_raises _ _ Hx); subst e]
         |pose proof (int_of_str_raises _ _ Hm); subst e]
      |pose proof (int_of_str_raises _ _ Hh); subst e];
      destruct rest as [|y rest'];
      (split; [|split; [|split; [|split; [|split; [|split]]]]]); fields_solve.
Qed.

(** "00:00:05" constructs a timer of 5 seconds; "a:b:c" raises
    [ValueError], on its first field; "5" raises [IndexError]. *)
Lemma C6_construction_succeeds_iff_witness :
  CountDownTimer.__init__ "00:00:05" None
  = Ok (CountDownTimer.mk (fadd zero (of_Z 5)) (Timer.__init__ (fadd zero (of_Z 5)) None))
  /\ CountDownTimer.__init__ "a:b:c" None = Raise ValueError
  /\ CountDownTimer.__init__ "5" None = Raise IndexError.
Proof.
  split; [|split].
  - destruct (C6_construction_succeeds_iff "00:00:05" None) as (H & _).
    apply (H "00" "00" "05" [] 0 0 (of_Z 5) zero); vm_compute; reflexivity.
  - destruct (C6_construction_succeeds_iff "a:b:c" None) as (_ & _ & H & _).
    apply H. left. exists "a", ["b"; "c"]. split; vm_compute; reflexivity.
  - destruct (C6_construction_succeeds_iff "5" None) as (_ & _ & _ & H & _).
    apply H. left. exists "5", 5. split; vm_compute; reflexivity.
Defined.

(** C7. From "01:02:03.5" the constructor reads 1 hour, 2 minutes and 3.5
    seconds; its [seconds] is the float that is exactly 3723.5, and that
    float is the bound of the inner timer. *)
Theorem C7_duration_of_01_02_03_5 :
  forall cmd : option Callable,
    int_of_str "01" = Ok 1
    /\ int_of_str "02" = Ok 2
    /\ float_of_str "03.5" = Ok (S754_finite false 7881299347898368 (-51))
    /\ is_ratio (S754_finite false 7881299347898368 (-51)) 35 10 = true
    /\ is_ratio Sample.f3723_5 37235 10 = true
    /\ CountDownTimer.__init__ "01:02:03.5" cmd
       = Ok (CountDownTimer.mk Sample.f3723_5 (Timer.__init__ Sample.f3723_5 cmd)).
Proof.
  intros cmd. repeat split; try (vm_compute; reflexivity).
  destruct cmd; vm_compute; reflexivity.
Qed.

End CountDownFacts.

(** ** More on [Timer]: pausing, stopping twice, expiry *)

Module TimerMore.
Import PyFloat FloatFacts Timer Caller TimerFacts Idle.

(** Subtracting [0.0] changes no float. *)
Lemma fsub_zero x : fsub x zero = x.
Proof. destruct x as [[|]|[|]| |s m e]; reflexivity. Qed.

Lemma set_is_running_same self b : is_running self = b -> set_is_running b self = self.
Proof. destruct self; cbn; intros <-; reflexivity. Qed.

Lemma passive_stopped o self w :
  is_running self = false -> passive o = true -> run_op o self w = (self, w).
Proof.
  intros Hr Hp. destruct o as [new| | | |n|]; try discriminate; cbn [run_op forget].
  - now rewrite update_stopped.
  - unfold pause, modify. cbn. now rewrite set_is_running_same.
  - now rewrite get_time_stopped.
Qed.

Lemma passives_stopped os : forall self w,
  is_running self = false -> forallb passive os = true -> run_ops os self w = (self, w).
Proof.
  induction os as [|o os IH]; intros self w Hr Hp; [reflexivity|].
  cbn in Hp. apply andb_prop in Hp as [Hp1 Hp2].
  cbn [run_ops]. rewrite passive_stopped by assumption. now apply IH.
Qed.

(** X1. After [pause()], calls of [update], [pause] and [get_time] in any
    number and order change nothing: the timer stays as [pause] left it,
    the clock is not read and no callback is called, however long the pause
    lasts; and [get_time] keeps returning the time saved before the
    pause. *)
Theorem pause_freezes :
  forall (os : list op) (self : t) (w : World),
    forallb passive os = true ->
    run_ops (Pause :: os) self w = (set_is_running false self, w)
    /\ forall n, get_time n (set_is_running false self) w
                 = (Ok (_saved_time self), set_is_running false self, w).
Proof.
  intros os self w Hp. split.
  - cbn [run_ops run_op forget]. unfold pause, modify. cbn [obj_of world_of fst snd].
    apply passives_stopped; [destruct self; reflexivity | assumption].
  - intros n. rewrite get_time_stopped by (destruct self; reflexivity).
    destruct self; reflexivity.
Qed.

Lemma pause_freezes_witness :
  let running := run_ops [Start unbounded; Update] (__init__ unbounded None) Sample.w0 in
  run_ops [Pause; Update; GetTime 2; Update; Pause; GetTime 0] (fst running) (snd running)
  = (set_is_running false (fst running), snd running)
  /\ get_time 2 (set_is_running false (fst running)) (snd running)
     = (Ok Sample.f0_5, set_is_running false (fst running), snd running).
Proof.
  destruct (pause_freezes [Update; GetTime 2; Update; Pause; GetTime 0]
              (fst (run_ops [Start unbounded; Update] (__init__ unbounded None) Sample.w0))
              (snd (run_ops [Start unbounded; Update] (__init__ unbounded None) Sample.w0))
              eq_refl) as [H1 H2].
  exact (conj H1 (H2 2)).
Defined.

Lemma committed_idle self w f :
  command self = Some f -> is_running self = false ->
  obj_of (committed self w) = self
  /\ world_of (committed self w) = logged (view self) w.
Proof.
  intros Hf Hr. unfold committed.
  rewrite (set_is_running_same self false Hr), Hf.
  destruct (f (view self)); auto.
Qed.

(** X2. [stop()] is not idempotent towards the callback: on a timer that is
    already stopped, each further [stop()] calls the callback once more, on
    the same stopped timer, and changes neither the timer nor the count of
    clock readings.  The caller goes on after a callback that raises. *)
Theorem every_stop_calls_the_callback :
  forall (n : nat) (self : t) (w : World) (f : Callable),
    command self = Some f ->
    is_running self = false ->
    fst (run_ops (repeat Stop n) self w) = self
    /\ calls (snd (run_ops (repeat Stop n) self w)) = calls w ++ repeat (view self) n
    /\ ticks (snd (run_ops (repeat Stop n) self w)) = ticks w.
Proof.
  induction n as [|n IH]; intros self w f Hf Hr.
  - cbn. rewrite app_nil_r. auto.
  - cbn [repeat run_ops run_op forget]. rewrite stop_stopped by assumption.
    destruct (committed_idle self w f Hf Hr) as [Ho Hw]. rewrite Ho, Hw.
    destruct (IH self (logged (view self) w) f Hf Hr) as (H1 & H2 & H3).
    rewrite H1, H2, H3. cbn [calls ticks logged]. rewrite <- app_assoc.
    repeat split; reflexivity.
Qed.

Lemma every_stop_calls_the_callback_witness :
  let self := __init__ one (Some Sample.failing) in
  fst (run_ops [Stop; Stop; Stop] self Sample.w0) = self
  /\ calls (snd (run_ops [Stop; Stop; Stop] self Sample.w0))
     = [view self; view self; view self]
  /\ ticks (snd (run_ops [Stop; Stop; Stop] self Sample.w0)) = 0%nat.
Proof.
  exact (every_stop_calls_the_callback 3 (__init__ one (Some Sample.failing))
           Sample.w0 Sample.failing eq_refl eq_refl).
Defined.

Lemma committed_saved self w :
  _saved_time (obj_of (committed self w)) = _saved_time self
  /\ ticks (world_of (committed self w)) = ticks w.
Proof.
  unfold committed. destruct self as [d sv [f|] rn t0]; cbn; auto.
Qed.

Lemma update_expiring_obj self w r :
  is_running self = true ->
  fltb (elapsed self w 0) (time_in_seconds self)
  || fltb (time_in_seconds self) zero = false ->
  round (elapsed self w 1) 2 = Ok r ->
  obj_of (update self w) = obj_of (committed (set_saved_time r self) (tick (tick w)))
  /\ world_of (update self w) = world_of (committed (set_saved_time r self) (tick (tick w))).
Proof.
  intros Hr Hc Hround. rewrite (update_expiring self w r Hr Hc Hround).
  destruct (committed _ _) as [[[?|?] ?] ?]; auto.
Qed.

(** X3. A bound that is NaN is reached at once: both comparisons of
    [update] are false on a NaN, so the first [update()] of a running timer
    stops it and calls the callback, whatever the elapsed time.  The clock
    returns finite doubles. *)
Theorem nan_bound_expires_at_first_poll :
  forall (self : t) (w : World) (f : Callable),
    time_in_seconds self = S754_nan ->
    command self = Some f ->
    is_running self = true ->
    is_double (start_time self) = true ->
    (forall i, is_double (clock w i) = true) ->
    is_running (obj_of (update self w)) = false
    /\ calls (world_of (update self w)) = calls w ++ [view (obj_of (update self w))].
Proof.
  intros self w f Hd Hf Hr Ht0 Hclk.
  assert (Hc : fltb (elapsed self w 0) (time_in_seconds self)
               || fltb (time_in_seconds self) zero = false).
  { rewrite Hd. destruct (elapsed self w 0); reflexivity. }
  destruct (round_ok (elapsed self w 1) 2) as [r Hround];
    [apply fsub_shape; auto | lia |].
  destruct (update_expiring_obj self w r Hr Hc Hround) as [Ho Hw].
  rewrite Ho, Hw.
  destruct (committed_atomic (set_saved_time r self) (tick (tick w)) f) as (H1 & _ & H3 & _);
    [destruct self; assumption|].
  split; [exact H1 | exact H3].
Qed.

Lemma nan_bound_expires_at_first_poll_witness :
  let started := start S754_nan (__init__ one (Some Sample.quiet)) Sample.w0 in
  is_running (obj_of (update (obj_of started) (world_of started))) = false
  /\ calls (world_of (update (obj_of started) (world_of started)))
     = [view (obj_of (update (obj_of started) (world_of started)))].
Proof.
  exact (nan_bound_expires_at_first_poll
           (obj_of (start S754_nan (__init__ one (Some Sample.quiet)) Sample.w0))
           (world_of (start S754_nan (__init__ one (Some Sample.quiet)) Sample.w0))
           Sample.quiet eq_refl eq_refl eq_refl eq_refl sample_clock_double).
Defined.

Lemma set_back_clock_double : forall i, is_double (clock set_back i) = true.
Proof.
  intros i. unfold set_back, clock, clock_of.
  do 3 (destruct i as [|i]; [reflexivity|]). destruct i; reflexivity.
Qed.

(** X4. The [update()] that finds the bound [d >= 0] reached reads the
    clock twice: once for the test, once more inside [stop].  The saved time
    it leaves is the second reading's elapsed time rounded to two decimals,
    not the elapsed time that was tested.  The clock returns finite
    doubles. *)
Theorem expiry_saves_the_rounded_second_reading :
  forall (self : t) (w : World),
    is_running self = true ->
    fleb zero (time_in_seconds self) = true ->
    fgeb (elapsed self w 0) (time_in_seconds self) = true ->
    is_double (start_time self) = true ->
    (forall i, is_double (clock w i) = true) ->
    round (elapsed self w 1) 2 = Ok (_saved_time (obj_of (update self w)))
    /\ ticks (world_of (update self w)) = (ticks w + 2)%nat.
Proof.
  intros self w Hr Hd Hge Ht0 Hclk.
  assert (Hc : fltb (elapsed self w 0) (time_in_seconds self)
               || fltb (time_in_seconds self) zero = false).
  { rewrite expiry_test, Hge; [reflexivity | assumption |]. apply fsub_shape; auto. }
  destruct (round_ok (elapsed self w 1) 2) as [r Hround];
    [apply fsub_shape; auto | lia |].
  destruct (update_expiring_obj self w r Hr Hc Hround) as [Ho Hw].
  rewrite Ho, Hw.
  destruct (committed_saved (set_saved_time r self) (tick (tick w))) as [Hs Ht].
  rewrite Hs, Ht. split; [destruct self; exact Hround | cbn; lia].
Qed.

(** On a clock that is set back between the two readings, the saved time
    left at expiry is below the bound. *)
Lemma expiry_saves_the_rounded_second_reading_witness :
  let started := start unbounded (__init__ Sample.f1_5 None) set_back in
  let polled := update (obj_of started) (world_of started) in
  round Sample.f0_5 2 = Ok (_saved_time (obj_of polled))
  /\ ticks (world_of polled) = 3%nat
  /\ fltb (_saved_time (obj_of polled)) Sample.f1_5 = true.
Proof.
  destruct (expiry_saves_the_rounded_second_reading
           (obj_of (start unbounded (__init__ Sample.f1_5 None) set_back))
           (world_of (start unbounded (__init__ Sample.f1_5 None) set_back))
           eq_refl eq_refl eq_refl eq_refl set_back_clock_double) as [H1 H2].
  exact (conj H1 (conj H2 eq_refl)).
Defined.

(** What one [update] can add to the log. *)
Lemma update_at_most_once self w :
  calls (world_of (update self w)) = calls w
  \/ (is_running (obj_of (update self w)) = false
      /\ calls (world_of (update self w)) = calls w ++ [view (obj_of (update self w))]).
Proof.
  rewrite update_eq. destruct (is_running self) eqn:Hr; cbn [negb]; cbn iota; [|left; reflexivity].
  cbn zeta. destruct (_ || _); [left; reflexivity|].
  set (s1 := set_saved_time _ self).
  assert (Hr1 : is_running s1 = true) by (unfold s1; destruct self; assumption).
  rewrite stop_eq, get_time_running by assumption.
  destruct (round _ 2) as [r|e]; [|left; reflexivity].
  pose proof (committed_stopped (set_saved_time r s1) (tick (tick w))) as (H1 & H2 & H3).
  destruct (committed (set_saved_time r s1) (tick (tick w))) as [[[x|x] s2] w2];
    cbn [obj_of world_of fst snd] in *; subst w2;
    (destruct (command (set_saved_time r s1));
     [right; split; [exact H1 | rewrite H2; reflexivity] | left; reflexivity]).
Qed.

(** X5. Whatever the bound and the clock, a sequence of [update], [pause]
    and [get_time] calls adds at most one callback call, and the call it
    adds is made on a stopped timer that is then left stopped. *)
Theorem polling_fires_at_most_once :
  forall (os : list op) (self : t) (w : World),
    forallb passive os = true ->
    calls (snd (run_ops os self w)) = calls w
    \/ (is_running (fst (run_ops os self w)) = false
        /\ exists v, view_is_running v = false
             /\ calls (snd (run_ops os self w)) = calls w ++ [v]).
Proof.
  induction os as [|o os IH]; intros self w Hp; [left; reflexivity|].
  cbn in Hp. apply andb_prop in Hp as [Hp1 Hp2]. cbn [run_ops].
  destruct o as [new| | | |n|]; try discriminate; cbn [run_op forget].
  - destruct (update_at_most_once self w) as [H|[H1 H2]].
    + destruct (IH (obj_of (update self w)) (world_of (update self w)) Hp2) as [H'|(H1 & v & Hv & H2)].
      * left. congruence.
      * right. split; [exact H1|]. exists v. split; [exact Hv|]. congruence.
    + rewrite passives_stopped by assumption. cbn [fst snd].
      right. split; [exact H1|]. eexists. split; [|exact H2].
      cbn. exact H1.
  - destruct (IH (obj_of (pause self w)) (world_of (pause self w)) Hp2) as [H'|(H1 & v & Hv & H2)].
    + left. exact H'.
    + right. split; [exact H1|]. exists v. split; [exact Hv|]. exact H2.
  - destruct (get_time_quiet n self w) as (Hc & _).
    destruct (IH (obj_of (get_time n self w)) (world_of (get_time n self w)) Hp2) as [H'|(H1 & v & Hv & H2)].
    + left. congruence.
    + right. split; [exact H1|]. exists v. split; [exact Hv|]. congruence.
Qed.

Lemma polling_fires_at_most_once_witness :
  let started := start unbounded (__init__ one (Some Sample.quiet)) Sample.w0 in
  let os := [Update; GetTime 2; Update; Pause; Update; GetTime 0; Update] in
  calls (world_of started) = []
  /\ (List.length (calls (snd (run_ops os (obj_of started) (world_of started)))) <= 1)%nat.
Proof.
  split; [reflexivity|].
  destruct (polling_fires_at_most_once
              [Update; GetTime 2; Update; Pause; Update; GetTime 0; Update]
              (obj_of (start unbounded (__init__ one (Some Sample.quiet)) Sample.w0))
              (world_of (start unbounded (__init__ one (Some Sample.quiet)) Sample.w0))
              eq_refl) as [H|(H1 & v & Hv & H2)].
  - rewrite H. apply Nat.le_0_l.
  - rewrite H2. apply Nat.le_refl.
Defined.

(** X6. [go_on()] on a timer that was never started counts from the anchor
    [0.0]: the elapsed time it saves is the clock's reading itself.  So
    unless the bound is negative or above the reading, the timer expires at
    once, and is left stopped with the next reading rounded to two decimals
    as its saved time (the clock returning finite doubles). *)
Theorem go_on_before_start_counts_from_zero :
  forall (d : float) (cmd : option Callable) (w : World),
    let now := clock w (ticks w) in
    let resumed := go_on (__init__ d cmd) w in
    start_time (obj_of resumed) = zero
    /\ (fltb now d || fltb d zero = true ->
        resumed = (Ok tt, mk d now cmd true zero, tick w))
    /\ (fltb now d || fltb d zero = false ->
        (forall i, is_double (clock w i) = true) ->
        is_running (obj_of resumed) = false
        /\ round (clock w (ticks w + 1)) 2 = Ok (_saved_time (obj_of resumed))).
Proof.
  intros d cmd w now resumed. unfold resumed. rewrite go_on_eq.
  set (self := set_is_running true (__init__ d cmd)).
  assert (He : forall i, elapsed self w i = clock w (ticks w + i))
    by (intros i; unfold elapsed; cbn [self start_time set_is_running __init__];
        apply fsub_zero).
  split; [rewrite update_anchor; reflexivity|]. split.
  - intros H. rewrite update_before; [| reflexivity |].
    + rewrite He, Nat.add_0_r. reflexivity.
    + rewrite He, Nat.add_0_r. exact H.
  - intros H Hclk.
    assert (Hc : fltb (elapsed self w 0) (time_in_seconds self)
                 || fltb (time_in_seconds self) zero = false)
      by (rewrite He, Nat.add_0_r; exact H).
    destruct (round_ok (elapsed self w 1) 2) as [r Hround];
      [apply fsub_shape; [apply Hclk | reflexivity] | lia |].
    destruct (update_expiring_obj self w r eq_refl Hc Hround) as [Ho _].
    rewrite Ho.
    destruct (committed_stopped (set_saved_time r self) (tick (tick w))) as (H1 & _).
    destruct (committed_saved (set_saved_time r self) (tick (tick w))) as [Hs _].
    rewrite Hs, <- He. split; [exact H1 | exact Hround].
Qed.

Lemma go_on_before_start_counts_from_zero_witness :
  let early := tick Sample.w0 in
  let late := tick (tick Sample.w0) in
  go_on (__init__ one None) early
  = (Ok tt, mk one Sample.f0_5 None true zero, tick early)
  /\ is_running (obj_of (go_on (__init__ one None) late)) = false.
Proof.
  split.
  - exact (proj1 (proj2 (go_on_before_start_counts_from_zero one None (tick Sample.w0)))
                 eq_refl).
  - exact (proj1 (proj2 (proj2 (go_on_before_start_counts_from_zero
                                  one None (tick (tick Sample.w0))))
                        eq_refl sample_clock_double)).
Defined.

End TimerMore.

(** ** More on [CountUpTimer] *)

Module CountUpMore.
Import PyFloat PyStr FloatFacts UpCaller.
Local Open Scope string_scope.
Local Open Scope Z_scope.

Lemma up_get_time_idle mode self w :
  CountUpTimer.is_running self = false ->
  obj_of (CountUpTimer.get_time mode self w) = self
  /\ world_of (CountUpTimer.get_time mode self w) = w.
Proof.
  intros Hr. unfold CountUpTimer.get_time.
  destruct (negb (mode =? "HHMMSS")%string);
    unfold CountUpTimer._get_time, bind, get, lift, ret;
    rewrite Hr; cbn [negb]; cbv beta iota; [auto|].
  destruct (divmod _ _) as [[q r]|e]; [|auto].
  destruct (to_int q); auto.
Qed.

Lemma up_get_time_seconds self w :
  CountUpTimer.get_time "seconds" self w
  = if CountUpTimer.is_running self
    then (Ok (VFloat (fsub (clock w (ticks w)) (CountUpTimer.start_time self))),
          CountUpTimer.set_saved_time
            (fsub (clock w (ticks w)) (CountUpTimer.start_time self)) self,
          tick w)
    else (Ok (VFloat (CountUpTimer.saved_time self)), self, w).
Proof.
  unfold CountUpTimer.get_time, CountUpTimer._get_time, bind, get, lift, ret, time, modify.
  cbn [String.eqb Ascii.eqb Bool.eqb negb].
  destruct (CountUpTimer.is_running self); reflexivity.
Qed.

Lemma up_get_time_flags mode self w :
  CountUpTimer.is_running (obj_of (CountUpTimer.get_time mode self w))
  = CountUpTimer.is_running self
  /\ CountUpTimer.is_pause (obj_of (CountUpTimer.get_time mode self w))
     = CountUpTimer.is_pause self.
Proof.
  unfold CountUpTimer.get_time.
  destruct (negb (mode =? "HHMMSS")%string);
    unfold CountUpTimer._get_time, bind, get, lift, ret, time, modify;
    (destruct (CountUpTimer.is_running self) eqn:Hr; cbn [negb]; cbv beta iota);
    try (destruct self; cbn in *; auto; fail);
    (destruct (divmod _ _) as [[q r]|e]; [|destruct self; cbn in *; auto]);
    (destruct (to_int q); destruct self; cbn in *; auto).
Qed.

Lemma up_stop_eq self w :
  CountUpTimer.stop self w
  = (Ok tt,
     CountUpTimer.set_is_running false
       (obj_of (CountUpTimer.get_time "seconds" self w)),
     world_of (CountUpTimer.get_time "seconds" self w)).
Proof.
  unfold CountUpTimer.stop, bind, modify. rewrite up_get_time_seconds.
  destruct (CountUpTimer.is_running self); reflexivity.
Qed.

Lemma up_set_is_running_same self b :
  CountUpTimer.is_running self = b -> CountUpTimer.set_is_running b self = self.
Proof. destruct self; cbn; intros <-; reflexivity. Qed.

Lemma up_start_flag self w :
  CountUpTimer.is_pause (obj_of (CountUpTimer.start self w)) = true.
Proof.
  unfold CountUpTimer.start, bind, get, modify, ret, time.
  destruct (CountUpTimer.is_pause self); reflexivity.
Qed.

Lemma up_run_op_pause_mono o self w :
  CountUpTimer.is_pause self = true ->
  CountUpTimer.is_pause (fst (run_op o self w)) = true.
Proof.
  intros H. destruct o as [|mode|]; cbn [run_op]; unfold forget; cbn [fst].
  - apply up_start_flag.
  - now rewrite (proj2 (up_get_time_flags mode self w)).
  - rewrite up_stop_eq. cbn [obj_of fst snd].
    cbn [CountUpTimer.is_pause CountUpTimer.set_is_running].
    now rewrite (proj2 (up_get_time_flags "seconds" self w)).
Qed.

Lemma up_run_ops_pause_mono os : forall self w,
  CountUpTimer.is_pause self = true ->
  CountUpTimer.is_pause (fst (run_ops os self w)) = true.
Proof.
  induction os as [|o os IH]; intros self w H; [exact H|].
  cbn [run_ops]. pose proof (up_run_op_pause_mono o self w H) as H1.
  destruct (run_op o self w) as [s1 w1]. now apply IH.
Qed.

Lemma up_run_ops_started_once os : forall self w,
  existsb is_start os = true ->
  CountUpTimer.is_pause (fst (run_ops os self w)) = true.
Proof.
  induction os as [|o os IH]; intros self w H; [discriminate|].
  cbn in H. cbn [run_ops]. destruct o as [|mode|]; cbn [is_start orb] in H.
  - pose proof (up_start_flag self w) as H1. cbn [run_op]. unfold forget.
    apply up_run_ops_pause_mono. exact H1.
  - destruct (run_op _ self w) as [s1 w1]. now apply IH.
  - destruct (run_op _ self w) as [s1 w1]. now apply IH.
Qed.

Lemma up_unstarted_idle os : forall self w,
  CountUpTimer.is_running self = false ->
  existsb is_start os = false ->
  run_ops os self w = (self, w).
Proof.
  induction os as [|o os IH]; intros self w Hr Hs; [reflexivity|].
  cbn in Hs. apply orb_false_elim in Hs as [Hs1 Hs2].
  destruct o as [|mode|]; try discriminate; cbn [run_ops run_op]; unfold forget.
  - destruct (up_get_time_idle mode self w Hr) as [-> ->]. now apply IH.
  - rewrite up_stop_eq. cbn [obj_of world_of fst snd].
    destruct (up_get_time_idle "seconds" self w Hr) as [-> ->].
    rewrite up_set_is_running_same by assumption. now apply IH.
Qed.

(** X7. For a [CountUpTimer] driven by its methods from construction,
    [is_pause] tells whether [start()] has been called: it is true exactly
    when the calls made hold a [start].  A running timer has therefore been
    started, and until the first [start()] the calls of [get_time] and
    [stop] change nothing and read no clock. *)
Theorem count_up_flag_records_a_start :
  forall (offset : float) (w0 : World) (os : list op),
    let built := CountUpTimer.__init__ offset w0 in
    let final := run_ops os (fst built) (snd built) in
    CountUpTimer.is_pause (fst final) = existsb is_start os
    /\ (CountUpTimer.is_running (fst final) = true -> existsb is_start os = true)
    /\ (existsb is_start os = false -> final = built).
Proof.
  intros offset w0 os built final.
  destruct (existsb is_start os) eqn:Hs.
  - split; [|split; [reflexivity | discriminate]].
    now apply up_run_ops_started_once.
  - assert (E : final = built).
    { unfold final. rewrite up_unstarted_idle by (assumption || reflexivity).
      destruct built; reflexivity. }
    rewrite E. split; [reflexivity|]. split; [discriminate | reflexivity].
Qed.

Lemma count_up_flag_records_a_start_witness :
  let built := CountUpTimer.__init__ zero Sample.w0 in
  run_ops [GetTime "seconds"; Stop; GetTime "HHMMSS"; Stop] (fst built) (snd built)
  = built.
Proof.
  exact (proj2 (proj2 (count_up_flag_records_a_start zero Sample.w0
                         [GetTime "seconds"; Stop; GetTime "HHMMSS"; Stop])) eq_refl).
Defined.

(** X8. Once a [CountUpTimer] has been started, every further [start()]
    starts over: the anchor becomes the clock's reading, and the next
    reading of the timer is the time since that [start()] alone, whatever
    had been counted or saved before. *)
Theorem count_up_restart_discards_elapsed :
  forall (offset : float) (w0 : World) (os : list op),
    existsb is_start os = true ->
    let built := CountUpTimer.__init__ offset w0 in
    let before := run_ops os (fst built) (snd built) in
    let now := clock (snd before) (ticks (snd before)) in
    let next := clock (snd before) (ticks (snd before) + 1) in
    let after := run_ops [Start; GetTime "seconds"] (fst before) (snd before) in
    CountUpTimer.is_running (fst after) = true
    /\ CountUpTimer.start_time (fst after) = now
    /\ CountUpTimer.saved_time (fst after) = fsub next now.
Proof.
  intros offset w0 os Hs built before now next after.
  pose proof (up_run_ops_started_once os (fst built) (snd built) Hs) as Hp.
  fold before in Hp. unfold after, now, next.
  destruct before as [self w]. cbn [fst snd] in *.
  cbn [run_ops run_op]. unfold forget.
  unfold CountUpTimer.start, bind, get, time, modify, ret. rewrite Hp.
  cbn [obj_of world_of fst snd].
  rewrite up_get_time_seconds. cbn [CountUpTimer.is_running CountUpTimer.set_is_pause
    CountUpTimer.set_is_running CountUpTimer.set_saved_time CountUpTimer.set_start_time
    CountUpTimer.start_time CountUpTimer.saved_time CountUpTimer.is_pause fst snd obj_of world_of].
  rewrite Nat.add_1_r. cbn. auto.
Qed.

Lemma count_up_restart_discards_elapsed_witness :
  let built := CountUpTimer.__init__ zero Sample.w0 in
  let before := run_ops [Start; GetTime "seconds"; Stop] (fst built) (snd built) in
  let after := run_ops [Start; GetTime "seconds"] (fst before) (snd before) in
  CountUpTimer.saved_time (fst before) = Sample.f1_5
  /\ CountUpTimer.saved_time (fst after) = zero.
Proof.
  split; [reflexivity|].
  exact (proj2 (proj2 (count_up_restart_discards_elapsed zero Sample.w0
                         [Start; GetTime "seconds"; Stop] eq_refl))).
Defined.

Lemma up_get_times_idle os : forall self w,
  CountUpTimer.is_running self = false ->
  forallb is_get_time os = true ->
  run_ops os self w = (self, w).
Proof.
  induction os as [|o os IH]; intros self w Hr Hg; [reflexivity|].
  cbn in Hg. apply andb_prop in Hg as [Hg1 Hg2].
  destruct o as [|mode|]; try discriminate.
  cbn [run_ops run_op]. unfold forget.
  destruct (up_get_time_idle mode self w Hr) as [-> ->]. now apply IH.
Qed.

(** X9. [CountUpTimer.stop()] never raises.  It leaves the timer stopped,
    with the unrounded [now - anchor] as its saved time if it was running
    and the saved time as it was otherwise; after it, [get_time] in any
    mode and number changes nothing and reads no clock, and
    [get_time('seconds')] returns that saved time. *)
Theorem count_up_stop_freezes :
  forall (self : CountUpTimer.t) (w : World) (os : list op),
    forallb is_get_time os = true ->
    let stopped := CountUpTimer.stop self w in
    res_of stopped = Ok tt
    /\ CountUpTimer.is_running (obj_of stopped) = false
    /\ CountUpTimer.saved_time (obj_of stopped)
       = (if CountUpTimer.is_running self
          then fsub (clock w (ticks w)) (CountUpTimer.start_time self)
          else CountUpTimer.saved_time self)
    /\ run_ops os (obj_of stopped) (world_of stopped) = (obj_of stopped, world_of stopped)
    /\ forall w',
         CountUpTimer.get_time "seconds" (obj_of stopped) w'
         = (Ok (VFloat (CountUpTimer.saved_time (obj_of stopped))), obj_of stopped, w').
Proof.
  intros self w os Hg stopped.
  assert (Hr : CountUpTimer.is_running (obj_of stopped) = false).
  { unfold stopped. rewrite up_stop_eq. cbn [obj_of fst snd].
    destruct (obj_of _); reflexivity. }
  split; [unfold stopped; rewrite up_stop_eq; reflexivity|].
  split; [exact Hr|]. split; [|split].
  - unfold stopped. rewrite up_stop_eq, up_get_time_seconds.
    destruct self as [[|] sv t0 p]; reflexivity.
  - now apply up_get_times_idle.
  - intros w'. rewrite up_get_time_seconds, Hr. reflexivity.
Qed.

Lemma count_up_stop_freezes_witness :
  let running := run_ops [Start] (fst (CountUpTimer.__init__ zero Sample.w0))
                         (snd (CountUpTimer.__init__ zero Sample.w0)) in
  let stopped := CountUpTimer.stop (fst running) (snd running) in
  CountUpTimer.saved_time (obj_of stopped) = Sample.f0_5
  /\ run_ops [GetTime "seconds"; GetTime "HHMMSS"; GetTime "seconds"]
             (obj_of stopped) (world_of stopped)
     = (obj_of stopped, world_of stopped).
Proof.
  destruct (count_up_stop_freezes
              (fst (run_ops [Start] (fst (CountUpTimer.__init__ zero Sample.w0))
                                    (snd (CountUpTimer.__init__ zero Sample.w0))))
              (snd (run_ops [Start] (fst (CountUpTimer.__init__ zero Sample.w0))
                                    (snd (CountUpTimer.__init__ zero Sample.w0))))
              [GetTime "seconds"; GetTime "HHMMSS"; GetTime "seconds"] eq_refl)
    as (_ & _ & H3 & H4 & _).
  exact (conj H3 H4).
Defined.

(** *** The formatted reading *)

Lemma take_length n : forall s, (String.length (take n s) <= n)%nat.
Proof.
  unfold take. induction n as [|n IH]; intros [|c s]; cbn; try lia.
  specialize (IH s). lia.
Qed.

Lemma str_int_length z : (1 <= String.length (str_int z))%nat.
Proof.
  unfold str_int. destruct z as [|p|p]; cbn; [lia| |].
  - destruct (Pos.to_uint p); cbn; lia.
  - lia.
Qed.

Lemma str_int_length_10 z : 10 <= z -> (2 <= String.length (str_int z))%nat.
Proof.
  intros Hz. unfold str_int. destruct z as [|p|p]; try lia. cbn.
  pose proof (DecimalPos.Unsigned.of_to p) as H.
  pose proof (Unsigned.to_uint_nonnil p) as Hn.
  destruct (Pos.to_uint p) as [|d|d|d|d|d|d|d|d|d|d]; [now elim Hn|..];
    (destruct d; [cbn in H; try discriminate H; injection H as H; lia|..]; cbn; lia).
Qed.

Lemma two_digit_minutes k :
  0 <= k < 60 ->
  String.length (if k <? 10 then "0" ++ str_int k else str_int k) = 2%nat.
Proof.
  intros Hk.
  assert (H : forallb (fun n =>
            Nat.eqb (String.length (if Z.of_nat n <? 10 then "0" ++ str_int (Z.of_nat n)
                                    else str_int (Z.of_nat n))) 2)
            (seq 0 60) = true) by (vm_compute; reflexivity).
  rewrite forallb_forall in H. specialize (H (Z.to_nat k)).
  rewrite Z2Nat.id in H by lia. apply Nat.eqb_eq, H, in_seq. lia.
Qed.

Lemma divmod_60 x : exists q r, divmod x (of_Z 60) = Ok (q, r).
Proof.
  unfold divmod. change (negb (nonzero (of_Z 60))) with false. cbv iota.
  destruct (nonzero (fmod x (of_Z 60)));
    [destruct (negb _)|]; cbv beta iota zeta; eauto.
Qed.

Lemma to_int_raises x e : to_int x = Raise e -> e = ValueError \/ e = OverflowError.
Proof. destruct x; cbn; intros H; inversion H; auto. Qed.

Lemma to_int_of_divmod_finite x q r m :
  divmod x (of_Z 60) = Ok (q, r) -> to_int q = Ok m -> is_finite x = true.
Proof.
  intros E Em. destruct x as [s|s| |s mx ex]; try reflexivity.
  - destruct s; vm_compute in E; injection E as <- <-; discriminate Em.
  - vm_compute in E; injection E as <- <-; discriminate Em.
Qed.

Lemma hhmmss_stopped x anchor paused w :
  match res_of (CountUpTimer.get_time "HHMMSS" (CountUpTimer.mk false x anchor paused) w) with
  | Ok (VStr s) =>
      is_finite x = true
      /\ exists hh mm ss,
           s = hh ++ ":" ++ mm ++ ":" ++ ss
           /\ (2 <= String.length hh)%nat
           /\ String.length mm = 2%nat
           /\ (String.length ss <= 6)%nat
  | Ok (VFloat _) => False
  | Raise e => e = ValueError \/ e = OverflowError
  end.
Proof.
  unfold CountUpTimer.get_time, CountUpTimer._get_time, bind, get, lift, ret.
  cbn [String.eqb Ascii.eqb Bool.eqb negb CountUpTimer.is_running CountUpTimer.saved_time].
  cbv beta iota.
  destruct (divmod_60 x) as (q & r & E). rewrite E.
  destruct (to_int q) as [m|e] eqn:Em; cbn [res_of fst snd].
  - split; [exact (to_int_of_divmod_finite x q r m E Em)|].
    eexists _, _, _. split; [reflexivity|]. split; [|split].
    + destruct (m / 60 <? 10) eqn:Hh.
      * cbn [append String.length]. pose proof (str_int_length (m / 60)). lia.
      * apply str_int_length_10. apply Z.ltb_ge in Hh. exact Hh.
    + apply two_digit_minutes. apply Z.mod_pos_bound. lia.
    + apply take_length.
  - exact (to_int_raises q e Em).
Qed.

Lemma up_get_time_hhmmss self w :
  res_of (CountUpTimer.get_time "HHMMSS" self w)
  = res_of (CountUpTimer.get_time "HHMMSS"
              (CountUpTimer.mk false
                 (if CountUpTimer.is_running self
                  then fsub (clock w (ticks w)) (CountUpTimer.start_time self)
                  else CountUpTimer.saved_time self)
                 (CountUpTimer.start_time self) (CountUpTimer.is_pause self)) w).
Proof.
  unfold CountUpTimer.get_time, CountUpTimer._get_time, bind, get, lift, ret, time, modify.
  cbn [String.eqb Ascii.eqb Bool.eqb negb CountUpTimer.is_running CountUpTimer.saved_time].
  cbv beta iota.
  destruct (CountUpTimer.is_running self); cbn [negb]; cbv beta iota;
    cbn [CountUpTimer.saved_time CountUpTimer.set_saved_time];
    (destruct (divmod _ _) as [[q r]|e]; [|reflexivity]);
    (destruct (to_int q); reflexivity).
Qed.

(** X10. [CountUpTimer.get_time(mode)] returns the reading as a float for
    every [mode] other than 'HHMMSS' (any other string included), without
    raising.  For 'HHMMSS' it returns a string [hh:mm:ss] whose hours field
    has at least two characters, whose minutes field has exactly two and
    whose seconds field has at most six, and then the reading is finite;
    or it raises [ValueError] or [OverflowError], from [int()]. *)
Theorem count_up_get_time_result :
  forall (self : CountUpTimer.t) (w : World),
    let reading :=
      if CountUpTimer.is_running self
      then fsub (clock w (ticks w)) (CountUpTimer.start_time self)
      else CountUpTimer.saved_time self in
    (forall mode, String.eqb mode "HHMMSS" = false ->
       res_of (CountUpTimer.get_time mode self w) = Ok (VFloat reading))
    /\ match res_of (CountUpTimer.get_time "HHMMSS" self w) with
       | Ok (VStr s) =>
           is_finite reading = true
           /\ exists hh mm ss,
                s = hh ++ ":" ++ mm ++ ":" ++ ss
                /\ (2 <= String.length hh)%nat
                /\ String.length mm = 2%nat
                /\ (String.length ss <= 6)%nat
       | Ok (VFloat _) => False
       | Raise e => e = ValueError \/ e = OverflowError
       end.
Proof.
  intros self w reading. split.
  - intros mode Hm. unfold CountUpTimer.get_time. rewrite Hm. cbn [negb].
    unfold CountUpTimer._get_time, bind, get, ret, time, modify. unfold reading.
    destruct (CountUpTimer.is_running self); reflexivity.
  - rewrite up_get_time_hhmmss. apply hhmmss_stopped.
Qed.

Lemma count_up_get_time_result_witness :
  res_of (CountUpTimer.get_time "seconds"
            (CountUpTimer.mk true zero zero true) Sample.w0) = Ok (VFloat zero)
  /\ res_of (CountUpTimer.get_time "hhmmss"
               (CountUpTimer.mk false Sample.f3723_5 zero true) Sample.w0)
     = Ok (VFloat Sample.f3723_5).
Proof.
  split.
  - exact (proj1 (count_up_get_time_result
                    (CountUpTimer.mk true zero zero true) Sample.w0) "seconds" eq_refl).
  - exact (proj1 (count_up_get_time_result
                    (CountUpTimer.mk false Sample.f3723_5 zero true) Sample.w0)
                 "hhmmss" eq_refl).
Defined.

End CountUpMore.

(** ** More on [CountDownTimer] *)

Module CountDownMore.
Import PyFloat PyStr FloatFacts TimerFacts CountDownTimer DownCaller.
Local Open Scope string_scope.
Local Open Scope Z_scope.

(** *** The inner timer's bound and callback *)

Lemma committed_frame self w :
  Timer.time_in_seconds (obj_of (Timer.committed self w)) = Timer.time_in_seconds self
  /\ Timer.command (obj_of (Timer.committed self w)) = Timer.command self.
Proof. unfold Timer.committed. destruct self as [d sv [f|] rn t0]; cbn; auto. Qed.

Lemma get_time_frame n self w :
  Timer.time_in_seconds (obj_of (Timer.get_time n self w)) = Timer.time_in_seconds self
  /\ Timer.command (obj_of (Timer.get_time n self w)) = Timer.command self.
Proof.
  destruct (Timer.is_running self) eqn:Hr.
  - rewrite get_time_running by assumption.
    destruct (round _ n); destruct self; cbn; auto.
  - rewrite get_time_stopped by assumption. cbn; auto.
Qed.

Lemma stop_frame self w :
  Timer.time_in_seconds (obj_of (Timer.stop self w)) = Timer.time_in_seconds self
  /\ Timer.command (obj_of (Timer.stop self w)) = Timer.command self.
Proof.
  rewrite stop_eq. pose proof (get_time_frame 2 self w) as [H1 H2].
  destruct (Timer.get_time 2 self w) as [[[r|e] s0] w0]; cbn [obj_of fst snd] in *.
  - destruct (committed_frame s0 w0) as [H3 H4]. split; congruence.
  - auto.
Qed.

Lemma update_frame self w :
  Timer.time_in_seconds (obj_of (Timer.update self w)) = Timer.time_in_seconds self
  /\ Timer.command (obj_of (Timer.update self w)) = Timer.command self.
Proof.
  rewrite update_eq. destruct (Timer.is_running self); cbn [negb]; cbn iota; [|cbn; auto].
  cbn zeta. destruct (_ || _); [destruct self; cbn; auto|].
  set (s1 := Timer.set_saved_time _ self).
  pose proof (stop_frame s1 (tick w)) as [H1 H2].
  destruct (Timer.stop s1 (tick w)) as [[[r|e] s2] w2]; cbn [obj_of fst snd] in *;
    unfold s1 in *; destruct self; cbn in *; auto.
Qed.

Lemma start_default_frame self w :
  Timer.time_in_seconds (obj_of (Timer.start Timer.unbounded self w)) = Timer.time_in_seconds self
  /\ Timer.command (obj_of (Timer.start Timer.unbounded self w)) = Timer.command self
  /\ Timer._saved_time (obj_of (Timer.start Timer.unbounded self w)) = Timer._saved_time self
  /\ calls (world_of (Timer.start Timer.unbounded self w)) = calls w.
Proof.
  unfold Timer.start, bind, modify, time, ret.
  change (fneb Timer.unbounded Timer.unbounded) with false. cbn. auto.
Qed.

Lemma down_get_time_idle mode self w :
  obj_of (CountDownTimer.get_time mode self w) = self
  /\ world_of (CountDownTimer.get_time mode self w) = w.
Proof.
  unfold CountDownTimer.get_time, bind, get, lift, ret.
  destruct (negb (mode =? "HHMMSS")%string); [auto|].
  destruct (divmod _ _) as [[q r]|e]; [|auto].
  destruct (to_int q); auto.
Qed.

Lemma on_timer_obj {A} (m : Py Timer.t A) self w :
  obj_of (on_timer m self w) = set_timer (obj_of (m (timer self) w)) self
  /\ world_of (on_timer m self w) = world_of (m (timer self) w)
  /\ res_of (on_timer m self w) = res_of (m (timer self) w).
Proof.
  unfold on_timer. destruct (m (timer self) w) as [[r tm] w']. cbn. auto.
Qed.

Lemma down_go_on_eq self w :
  CountDownTimer.go_on self w
  = match Timer.go_on (timer self) w with
    | (Ok _, tm, w1) =>
        (res_of (Timer.update tm w1),
         set_timer (obj_of (Timer.update tm w1)) self,
         world_of (Timer.update tm w1))
    | (Raise e, tm, w1) => (Raise e, set_timer tm self, w1)
    end.
Proof.
  unfold CountDownTimer.go_on, CountDownTimer.update, bind, on_timer.
  destruct (Timer.go_on (timer self) w) as [[[u|e] tm] w1]; [|reflexivity].
  cbn [timer set_timer]. destruct (Timer.update tm w1) as [[r tm'] w']. reflexivity.
Qed.

Lemma down_stop_eq self w :
  obj_of (CountDownTimer.stop self w) = set_timer (obj_of (Timer.stop (timer self) w)) self
  /\ world_of (CountDownTimer.stop self w) = world_of (Timer.stop (timer self) w).
Proof.
  unfold CountDownTimer.stop, bind, on_timer, ret.
  destruct (Timer.stop (timer self) w) as [[[r|e] tm] w']; cbn; auto.
Qed.

(** One method call keeps the duration, the inner timer's bound and its
    callback. *)
Lemma down_run_op_frame o self w :
  seconds (fst (run_op o self w)) = seconds self
  /\ Timer.time_in_seconds (timer (fst (run_op o self w)))
     = Timer.time_in_seconds (timer self)
  /\ Timer.command (timer (fst (run_op o self w))) = Timer.command (timer self).
Proof.
  destruct o as [| | | |mode|]; cbn [run_op]; unfold forget; cbn [fst].
  - unfold CountDownTimer.start.
    rewrite (proj1 (on_timer_obj _ self w)). cbn [seconds timer set_timer].
    pose proof (start_default_frame (timer self) w) as (H1 & H2 & _). auto.
  - unfold CountDownTimer.update.
    rewrite (proj1 (on_timer_obj _ self w)). cbn [seconds timer set_timer].
    pose proof (update_frame (timer self) w) as (H1 & H2). auto.
  - unfold CountDownTimer.pause.
    rewrite (proj1 (on_timer_obj _ self w)). cbn [seconds timer set_timer].
    destruct (timer self); cbn; auto.
  - rewrite down_go_on_eq. rewrite go_on_eq.
    pose proof (update_frame (Timer.set_is_running true (timer self)) w) as (H1 & H2).
    destruct (Timer.update (Timer.set_is_running true (timer self)) w) as [[[u|e] tm] w1];
      cbn [obj_of fst snd seconds timer set_timer] in *.
    + pose proof (update_frame tm w1) as (H3 & H4).
      rewrite H3, H4, H1, H2. destruct (timer self); cbn; auto.
    + rewrite H1, H2. destruct (timer self); cbn; auto.
  - rewrite (proj1 (down_get_time_idle mode self w)). auto.
  - rewrite (proj1 (down_stop_eq self w)). cbn [seconds timer set_timer].
    pose proof (stop_frame (timer self) w) as (H1 & H2). auto.
Qed.

Lemma init_timer s cmd cd :
  CountDownTimer.__init__ s cmd = Ok cd ->
  timer cd = Timer.__init__ (seconds cd) cmd.
Proof.
  unfold CountDownTimer.__init__, rbind.
  destruct (item _ 0); [|discriminate].
  destruct (int_of_str _); [|discriminate].
  destruct (item _ 1); [|discriminate].
  destruct (int_of_str _); [|discriminate].
  destruct (item _ 2); [|discriminate].
  destruct (float_of_str _); [|discriminate].
  destruct (of_int _); [|discriminate].
  destruct cmd; intros H; injection H as <-; reflexivity.
Qed.

(** X11. No method of a [CountDownTimer] changes its duration: after any
    sequence of [start], [update], [pause], [go_on], [get_time] and [stop]
    calls, [seconds], the inner timer's bound and its callback are those of
    the construction. *)
Theorem countdown_duration_is_fixed :
  forall (s : string) (cmd : option Callable) (cd : CountDownTimer.t)
         (os : list op) (w : World),
    CountDownTimer.__init__ s cmd = Ok cd ->
    let final := fst (run_ops os cd w) in
    seconds final = seconds cd
    /\ Timer.time_in_seconds (timer final) = seconds cd
    /\ Timer.command (timer final) = cmd.
Proof.
  intros s cmd cd os w Hi final.
  assert (G : forall os self w,
             seconds (fst (run_ops os self w)) = seconds self
             /\ Timer.time_in_seconds (timer (fst (run_ops os self w)))
                = Timer.time_in_seconds (timer self)
             /\ Timer.command (timer (fst (run_ops os self w)))
                = Timer.command (timer self)).
  { clear. induction os as [|o os IH]; intros self w; [cbn; auto|].
    cbn [run_ops]. pose proof (down_run_op_frame o self w) as (H1 & H2 & H3).
    destruct (run_op o self w) as [s1 w1]. cbn [fst] in *.
    destruct (IH s1 w1) as (H4 & H5 & H6). repeat split; congruence. }
  destruct (G os cd w) as (H1 & H2 & H3). fold final in H1, H2, H3.
  rewrite H1, H2, H3, (init_timer s cmd cd Hi). cbn. auto.
Qed.

Lemma countdown_duration_is_fixed_witness :
  let cd := CountDownTimer.mk Sample.f1_5 (Timer.__init__ Sample.f1_5 (Some Sample.quiet)) in
  CountDownTimer.__init__ "0:0:1.5" (Some Sample.quiet) = Ok cd
  /\ Timer.time_in_seconds
       (timer (fst (run_ops [Start; Update; Pause; GoOn; GetTime "HHMMSS"; Stop; Start]
                            cd Sample.w0)))
     = Sample.f1_5.
Proof.
  assert (Hi : CountDownTimer.__init__ "0:0:1.5" (Some Sample.quiet)
               = Ok (CountDownTimer.mk Sample.f1_5
                       (Timer.__init__ Sample.f1_5 (Some Sample.quiet))))
    by (vm_compute; reflexivity).
  split; [exact Hi|].
  exact (proj1 (proj2 (countdown_duration_is_fixed _ _ _
           [Start; Update; Pause; GoOn; GetTime "HHMMSS"; Stop; Start] Sample.w0 Hi))).
Defined.

(** *** Reading without polling *)

Lemma down_unpolled_frame o self w :
  unpolled o = true ->
  seconds (fst (run_op o self w)) = seconds self
  /\ Timer._saved_time (timer (fst (run_op o self w))) = Timer._saved_time (timer self)
  /\ calls (snd (run_op o self w)) = calls w
  /\ clock (snd (run_op o self w)) = clock w.
Proof.
  intros Hu. destruct o as [| | | |mode|]; try discriminate;
    cbn [run_op]; unfold forget; cbn [fst snd].
  - unfold CountDownTimer.start.
    destruct (on_timer_obj (Timer.start Timer.unbounded) self w) as (-> & -> & _).
    cbn [seconds timer set_timer].
    pose proof (start_default_frame (timer self) w) as (_ & _ & H3 & H4).
    repeat split; auto.
  - unfold CountDownTimer.pause.
    destruct (on_timer_obj Timer.pause self w) as (-> & -> & _).
    cbn [seconds timer set_timer]. destruct (timer self); cbn; auto.
  - destruct (down_get_time_idle mode self w) as [-> ->]. auto.
Qed.

(** X12. A [CountDownTimer] does not count down by itself: as long as only
    [start], [pause] and [get_time] are called, [get_time('seconds')]
    returns the full duration and no callback is called.  The remaining time
    moves only when [update], [go_on] or [stop] is called. *)
Theorem countdown_stays_full_until_polled :
  forall (s : string) (cmd : option Callable) (cd : CountDownTimer.t)
         (os : list op) (w : World),
    CountDownTimer.__init__ s cmd = Ok cd ->
    forallb unpolled os = true ->
    let final := run_ops os cd w in
    res_of (CountDownTimer.get_time "seconds" (fst final) (snd final))
    = Ok (VFloat (seconds cd))
    /\ calls (snd final) = calls w.
Proof.
  intros s cmd cd os w Hi Hu final.
  assert (G : forall os self w, forallb unpolled os = true ->
             seconds (fst (run_ops os self w)) = seconds self
             /\ Timer._saved_time (timer (fst (run_ops os self w)))
                = Timer._saved_time (timer self)
             /\ calls (snd (run_ops os self w)) = calls w).
  { clear. induction os as [|o os IH]; intros self w Hu; [cbn; auto|].
    cbn in Hu. apply andb_prop in Hu as [Hu1 Hu2].
    cbn [run_ops]. pose proof (down_unpolled_frame o self w Hu1) as (H1 & H2 & H3 & _).
    destruct (run_op o self w) as [s1 w1]. cbn [fst snd] in *.
    destruct (IH s1 w1 Hu2) as (H4 & H5 & H6). repeat split; congruence. }
  destruct (G os cd w Hu) as (H1 & H2 & H3). fold final in H1, H2, H3.
  split; [|exact H3].
  unfold CountDownTimer.get_time, bind, get, ret.
  cbn [String.eqb Ascii.eqb Bool.eqb negb res_of fst].
  rewrite H1, H2, (init_timer s cmd cd Hi). cbn [Timer._saved_time Timer.__init__].
  now rewrite TimerMore.fsub_zero.
Qed.

Lemma countdown_stays_full_until_polled_witness :
  let cd := CountDownTimer.mk Sample.f1_5 (Timer.__init__ Sample.f1_5 (Some Sample.quiet)) in
  let final := run_ops [Start; GetTime "seconds"; GetTime "seconds"; GetTime "seconds";
                        Pause; Start] cd Sample.w0 in
  CountDownTimer.__init__ "0:0:1.5" (Some Sample.quiet) = Ok cd
  /\ res_of (CountDownTimer.get_time "seconds" (fst final) (snd final))
     = Ok (VFloat Sample.f1_5).
Proof.
  assert (Hi : CountDownTimer.__init__ "0:0:1.5" (Some Sample.quiet)
               = Ok (CountDownTimer.mk Sample.f1_5
                       (Timer.__init__ Sample.f1_5 (Some Sample.quiet))))
    by (vm_compute; reflexivity).
  split; [exact Hi|].
  exact (proj1 (countdown_stays_full_until_polled _ _ _
           [Start; GetTime "seconds"; GetTime "seconds"; GetTime "seconds"; Pause; Start]
           Sample.w0 Hi eq_refl)).
Defined.

(** *** Resuming *)

(** X13. [CountDownTimer.go_on()] updates the inner timer twice (once in
    [Timer.go_on], once more itself), yet calls the callback at most once:
    the call it adds is made on a stopped inner timer, which is then left
    stopped. *)
Theorem countdown_go_on_fires_at_most_once :
  forall (self : CountDownTimer.t) (w : World),
    let r := CountDownTimer.go_on self w in
    calls (world_of r) = calls w
    \/ (Timer.is_running (timer (obj_of r)) = false
        /\ exists v, view_is_running v = false
             /\ calls (world_of r) = (calls w ++ [v])%list).
Proof.
  intros self w r. unfold r. rewrite down_go_on_eq, go_on_eq.
  destruct (TimerMore.update_at_most_once (Timer.set_is_running true (timer self)) w) as [H|[H1 H2]].
  - destruct (Timer.update (Timer.set_is_running true (timer self)) w) as [[[u|e] tm] w1];
      cbn [obj_of world_of fst snd timer set_timer] in *; [|left; exact H].
    destruct (TimerMore.update_at_most_once tm w1) as [H'|[H1 H2]].
    + left. congruence.
    + right. split; [exact H1|]. eexists. split; [|rewrite H2, H; reflexivity].
      cbn. exact H1.
  - destruct (Timer.update (Timer.set_is_running true (timer self)) w) as [[[u|e] tm] w1];
      cbn [obj_of world_of fst snd timer set_timer] in *.
    + rewrite update_stopped by assumption. cbn [obj_of world_of fst snd].
      right. split; [exact H1|]. eexists. split; [|exact H2]. cbn. exact H1.
    + right. split; [exact H1|]. eexists. split; [|exact H2]. cbn. exact H1.
Qed.

(** *** A negative duration *)

Lemma down_run_op_negative o self w :
  fltb (Timer.time_in_seconds (timer self)) zero = true ->
  is_stop o = false ->
  fltb (Timer.time_in_seconds (timer (fst (run_op o self w)))) zero = true
  /\ calls (snd (run_op o self w)) = calls w.
Proof.
  intros Hd Hs.
  rewrite (proj1 (proj2 (down_run_op_frame o self w))). split; [exact Hd|].
  destruct o as [| | | |mode|]; try discriminate; cbn [run_op]; unfold forget; cbn [snd].
  - unfold CountDownTimer.start.
    rewrite (proj1 (proj2 (on_timer_obj _ self w))).
    apply start_default_frame.
  - unfold CountDownTimer.update.
    rewrite (proj1 (proj2 (on_timer_obj _ self w))).
    now apply update_unbounded.
  - reflexivity.
  - rewrite down_go_on_eq, go_on_eq.
    destruct (update_unbounded (Timer.set_is_running true (timer self)) w) as [Hc Ht];
      [destruct (timer self); exact Hd|].
    destruct (Timer.update (Timer.set_is_running true (timer self)) w) as [[[u|e] tm] w1];
      cbn [obj_of world_of fst snd] in *; [|exact Hc].
    destruct (update_unbounded tm w1) as [Hc' _].
    { rewrite Ht. destruct (timer self); exact Hd. }
    congruence.
  - now rewrite (proj2 (down_get_time_idle mode self w)).
Qed.

(** X14. A [CountDownTimer] constructed with a negative duration never
    expires: no sequence of [start], [update], [pause], [go_on] and
    [get_time] calls, with no [stop()] among them, calls its callback,
    whatever the clock reads. *)
Theorem countdown_negative_never_fires_without_stop :
  forall (s : string) (cmd : option Callable) (cd : CountDownTimer.t)
         (os : list op) (w : World),
    CountDownTimer.__init__ s cmd = Ok cd ->
    fltb (seconds cd) zero = true ->
    existsb is_stop os = false ->
    calls (snd (run_ops os cd w)) = calls w.
Proof.
  intros s cmd cd os w Hi Hn Hs.
  assert (Hd : fltb (Timer.time_in_seconds (timer cd)) zero = true)
    by (rewrite (init_timer s cmd cd Hi); exact Hn).
  clear Hi Hn. revert cd w Hd Hs.
  induction os as [|o os IH]; intros self w Hd Hs; [reflexivity|].
  cbn in Hs. apply orb_false_elim in Hs as [Hs1 Hs2].
  destruct (down_run_op_negative o self w Hd Hs1) as [Hd' Hc].
  cbn [run_ops]. destruct (run_op o self w) as [s1 w1]. cbn [fst snd] in *.
  rewrite IH by assumption. exact Hc.
Qed.

Lemma countdown_negative_never_fires_without_stop_witness :
  let cd := CountDownTimer.mk (of_Z (-5)) (Timer.__init__ (of_Z (-5)) (Some Sample.quiet)) in
  CountDownTimer.__init__ "0:0:-5" (Some Sample.quiet) = Ok cd
  /\ calls (snd (run_ops [Start; Update; Update; Pause; GoOn; GetTime "seconds"; Update]
                         cd Sample.w0)) = [].
Proof.
  assert (Hi : CountDownTimer.__init__ "0:0:-5" (Some Sample.quiet)
               = Ok (CountDownTimer.mk (of_Z (-5))
                       (Timer.__init__ (of_Z (-5)) (Some Sample.quiet))))
    by (vm_compute; reflexivity).
  split; [exact Hi|].
  exact (countdown_negative_never_fires_without_stop _ _ _
           [Start; Update; Update; Pause; GoOn; GetTime "seconds"; Update]
           Sample.w0 Hi eq_refl eq_refl).
Defined.

(** *** The formatted reading *)

Lemma down_get_time_hhmmss self w :
  res_of (CountDownTimer.get_time "HHMMSS" self w)
  = res_of (CountUpTimer.get_time "HHMMSS"
              (CountUpTimer.mk false
                 (fsub (seconds self) (Timer._saved_time (timer self))) zero false) w).
Proof.
  unfold CountDownTimer.get_time, CountUpTimer.get_time, CountUpTimer._get_time.
  unfold bind, get, lift, ret.
  cbn [String.eqb Ascii.eqb Bool.eqb negb CountUpTimer.is_running CountUpTimer.saved_time].
  cbv beta iota.
  destruct (divmod _ _) as [[q r]|e]; [|reflexivity].
  destruct (to_int q); reflexivity.
Qed.

(** X15. [CountDownTimer.get_time(mode)] returns the remaining time
    [seconds - timer._saved_time] as a float for every [mode] other than
    'HHMMSS', without raising.  For 'HHMMSS' it returns a string [hh:mm:ss]
    whose hours field has at least two characters, whose minutes field has
    exactly two and whose seconds field has at most six, and then the
    remaining time is finite; or it raises [ValueError] or [OverflowError],
    from [int()]. *)
Theorem countdown_get_time_result :
  forall (self : CountDownTimer.t) (w : World),
    let remaining := fsub (seconds self) (Timer._saved_time (timer self)) in
    (forall mode, String.eqb mode "HHMMSS" = false ->
       res_of (CountDownTimer.get_time mode self w) = Ok (VFloat remaining))
    /\ match res_of (CountDownTimer.get_time "HHMMSS" self w) with
       | Ok (VStr s) =>
           is_finite remaining = true
           /\ exists hh mm ss,
                s = hh ++ ":" ++ mm ++ ":" ++ ss
                /\ (2 <= String.length hh)%nat
                /\ String.length mm = 2%nat
                /\ (String.length ss <= 6)%nat
       | Ok (VFloat _) => False
       | Raise e => e = ValueError \/ e = OverflowError
       end.
Proof.
  intros self w remaining. split.
  - intros mode Hm. unfold CountDownTimer.get_time, bind, get, ret. rewrite Hm. reflexivity.
  - rewrite down_get_time_hhmmss. apply CountUpMore.hhmmss_stopped.
Qed.

Lemma countdown_get_time_result_witness :
  res_of (CountDownTimer.get_time "seconds"
            (CountDownTimer.mk Sample.f1_5 (Timer.__init__ Sample.f1_5 None)) Sample.w0)
  = Ok (VFloat Sample.f1_5).
Proof.
  exact (proj1 (countdown_get_time_result
                  (CountDownTimer.mk Sample.f1_5 (Timer.__init__ Sample.f1_5 None))
                  Sample.w0) "seconds" eq_refl).
Defined.

End CountDownMore.
